(** * tg-chat-notify: the poll / compare / notify loop of [index.js]

    A shallow embedding of [src/index.js] and the properties of its
    polling cycle.  The program keeps two module-level variables,
    [lastResponseId] and [lastResponse]; every invocation of
    [pollHttpEndpoint] requests one document, compares its [id] with the
    stored one, sends a Telegram message on a difference and stores the
    document.

    What the program reads from the outside (the answer of [axios.get],
    the wall clock, the answer of the Telegram API) is an input of the
    model; what it does to the outside (log lines, requests, messages,
    replies) is recorded, in order, in a trace of events. *)

From Stdlib Require Import String Ascii List Bool Arith ZArith.
From Stdlib Require Import DecimalString.
From Stdlib Require Import Floats.
Import ListNotations.

Local Open Scope string_scope.
Local Open Scope list_scope.

(* ================================================================== *)
(** ** JavaScript values *)

(** A JavaScript number is an IEEE 754 double: a primitive [float].
    Arrays and objects are heap objects: [ref] is the identity of the
    allocation, which is what [===] compares.  The program never writes
    into a document it received, so an object is given by its identity
    and its own properties, in insertion order. *)
#[warnings="-register-all"]
Inductive value : Type :=
| VUndefined
| VNull
| VBool (b : bool)
| VNumber (x : float)
| VString (s : string)
| VArray (ref : nat) (elems : list value)
| VObject (ref : nat) (props : list (string * value)).

(** A thrown [Error]; the program only ever reads its [message]. *)
Record error : Type := mkError { message : string }.

(** Completion of an evaluation: a value, or an exception on its way to
    the nearest [catch]. *)
Inductive outcome (A : Type) : Type :=
| Return (a : A)
| Throw (e : error).
Arguments Return {A} a.
Arguments Throw {A} e.

(** [a === b] (IsStrictlyEqual): operands of different types differ,
    numbers compare as doubles (so [NaN] differs from itself and the two
    zeros are equal), strings by their characters, objects by identity. *)
Definition strict_equals (a b : value) : bool :=
  match a, b with
  | VUndefined, VUndefined => true
  | VNull, VNull => true
  | VBool x, VBool y => Bool.eqb x y
  | VNumber x, VNumber y => PrimFloat.eqb x y
  | VString x, VString y => String.eqb x y
  | VArray r _, VArray r' _ => Nat.eqb r r'
  | VObject r _, VObject r' _ => Nat.eqb r r'
  | _, _ => false
  end.

(** ToBoolean, as used by [if (v)], [!v] and [v ? a : b]. *)
Definition truthy (v : value) : bool :=
  match v with
  | VUndefined | VNull => false
  | VBool b => b
  | VNumber x => negb (PrimFloat.eqb x 0%float || PrimFloat.is_nan x)
  | VString s => negb (String.eqb s "")
  | VArray _ _ | VObject _ _ => true
  end.

(** [typeof v === 'object'] *)
Definition typeof_object (v : value) : bool :=
  match v with
  | VNull | VArray _ _ | VObject _ _ => true
  | _ => false
  end.

Definition nullish (v : value) : bool :=
  match v with
  | VUndefined | VNull => true
  | _ => false
  end.

(** The own property [k] of an object, [undefined] when there is none. *)
Fixpoint own_property (k : string) (props : list (string * value)) : value :=
  match props with
  | [] => VUndefined
  | (k', v) :: rest => if String.eqb k k' then v else own_property k rest
  end.

(** The message V8 gives the [TypeError] of a property read on
    [undefined] or [null]. *)
Definition cannot_read (base key : string) : error :=
  mkError ("Cannot read properties of " ++ base ++ " (reading '" ++ key ++ "')").

Definition index_name (n : nat) : string :=
  NilZero.string_of_uint (Nat.to_uint n).

(** [v.name] for a name that is neither an index nor [length] nor
    inherited from a prototype ([data] and [id] are the two names the
    program reads): only an object can have it. *)
Definition get_named (v : value) (name : string) : outcome value :=
  match v with
  | VUndefined => Throw (cannot_read "undefined" name)
  | VNull => Throw (cannot_read "null" name)
  | VObject _ props => Return (own_property name props)
  | _ => Return VUndefined
  end.

(** [v[n]] for an index [n]: an element of an array, a character of a
    string, the property named by the digits of [n] of an object. A
    string is held as its UTF-8 bytes, so the character read here is a
    byte where JavaScript reads a UTF-16 code unit: the two agree on
    ASCII text, and always on whether there is a character at all. *)
Definition get_index (v : value) (n : nat) : outcome value :=
  match v with
  | VUndefined => Throw (cannot_read "undefined" (index_name n))
  | VNull => Throw (cannot_read "null" (index_name n))
  | VArray _ elems => Return (nth n elems VUndefined)
  | VString s =>
      Return (match String.get n s with
              | Some c => VString (String c EmptyString)
              | None => VUndefined
              end)
  | VObject _ props => Return (own_property (index_name n) props)
  | _ => Return VUndefined
  end.

(* ================================================================== *)
(** ** Texts, events and the environment *)

(** A template literal is kept as its pieces.  The conversions of a
    number or of a document to characters ([ToString], [JSON.stringify],
    [String]) belong to the runtime and decide nothing in this program,
    so a piece names the conversion and its operand. *)
Inductive piece : Type :=
| Lit (s : string)
| Num (x : float)
| JSON_stringify (v : value)
| String_of (v : value).

Definition text : Type := list piece.

(** What the program does to the outside world. *)
Inductive event : Type :=
| LogInfo (msg : text)
| LogError (msg : text)
| AxiosGet (url headers : option string) (timeout : float)
| ApiSendMessage (chat_id : string) (msg : text) (parse_mode : string)
| BotStart
| Reply (ctx : nat) (msg : text) (parse_mode : option string)
| ScheduleJob (rule : text).

(** [process.env], after the parsing of lines 40 to 48. *)
Record Config : Type := mkConfig {
  API_URL : option string;
  REQUEST_INTERVAL : float;
  REQUEST_TIMEOUT : float;
  REQUEST_HEADERS : option string;
  TELEGRAM_BOT_TOKEN : option string;
  TELEGRAM_CHAT_ID : option string;
  NOTIFY_ON_CHANGE_ONLY : bool
}.

(** An environment variable is truthy when it is set and not empty. *)
Definition set_and_nonempty (o : option string) : bool :=
  match o with
  | Some s => negb (String.eqb s "")
  | None => false
  end.

(** An absent string interpolates as [undefined]. *)
Definition interpolate (o : option string) : string :=
  match o with
  | Some s => s
  | None => "undefined"
  end.

(** The answer of axios: [status] and the parsed body [data]. *)
Record response : Type := mkResponse { status : float; data : value }.

(** How the promise of [axios.get] settles. *)
Inductive fetch_result : Type :=
| GetRejected (e : error)
| GetFulfilled (r : response).

(** How the promise of a Telegram API call settles. *)
Inductive api_result : Type :=
| ApiFulfilled
| ApiRejected (e : error).

(* ================================================================== *)
(** ** Module state and the monad of synchronous code *)

(** Lines 59 and 60. *)
Record globals : Type := mkGlobals {
  lastResponseId : value;
  lastResponse : value
}.

Definition initial : globals := mkGlobals VNull VNull.

(** A stretch of synchronous code: it reads and writes the module
    state, appends to the trace, and returns or throws.  A throw keeps
    the state it was raised in: nothing is rolled back. *)
Definition M (A : Type) : Type := globals -> outcome A * globals * list event.

Definition ret {A} (a : A) : M A := fun g => (Return a, g, []).

Definition throw {A} (e : error) : M A := fun g => (Throw e, g, []).

Definition bind {A B} (m : M A) (k : A -> M B) : M B :=
  fun g =>
    match m g with
    | (Return a, g1, t1) =>
        match k a g1 with
        | (o, g2, t2) => (o, g2, t1 ++ t2)
        end
    | (Throw e, g1, t1) => (Throw e, g1, t1)
    end.

(** [try { m } catch (error) { handler error }] *)
Definition try_catch {A} (m : M A) (handler : error -> M A) : M A :=
  fun g =>
    match m g with
    | (Return a, g1, t1) => (Return a, g1, t1)
    | (Throw e, g1, t1) =>
        match handler e g1 with
        | (o, g2, t2) => (o, g2, t1 ++ t2)
        end
    end.

Definition lift {A} (o : outcome A) : M A := fun g => (o, g, []).

Definition emit (e : event) : M unit := fun g => (Return tt, g, [e]).

Definition read : M globals := fun g => (Return g, g, []).

Definition set_lastResponse (v : value) : M unit :=
  fun g => (Return tt, mkGlobals (lastResponseId g) v, []).

Definition set_lastResponseId (v : value) : M unit :=
  fun g => (Return tt, mkGlobals v (lastResponse g), []).

Declare Scope js_scope.
Delimit Scope js_scope with js.
Notation "x <- m ;; k" := (bind m (fun x => k))
  (at level 61, m at next level, right associativity) : js_scope.
Notation "m ;; k" := (bind m (fun _ => k))
  (at level 61, right associativity) : js_scope.
Local Open Scope js_scope.

(** [log.info] and [log.error] of lines 29 to 38. *)
Definition log_info (msg : text) : M unit := emit (LogInfo msg).
Definition log_error (msg : text) : M unit := emit (LogError msg).

Definition newline : string := String (ascii_of_nat 10) EmptyString.

(* ================================================================== *)
(** ** The program *)

Section Program.

(** The module-level [config] of lines 40 to 48. *)
Variable config : Config.

(** Lines 50 to 56: the bot exists when the token is truthy. *)
Definition bot : bool := set_and_nonempty (TELEGRAM_BOT_TOKEN config).

Definition init_bot : M unit :=
  if bot then log_info [Lit "Telegram bot initialized"]
  else log_error [Lit "Missing Telegram bot token, unable to initialize bot"].

(** *** sendTelegramMessage (lines 67 to 81)

    An [async] function runs synchronously up to its first [await] and
    is resumed when the awaited promise settles.  [send_pc] is where
    [sendTelegramMessage] stands when its synchronous start is over: it
    has returned [false], or it waits for [bot.api.sendMessage]. *)
Inductive send_pc : Type :=
| SendReturned (ok : bool)
| SendAwaitingApi.

Definition sendTelegramMessage_start (msg : text) : M send_pc :=
  if negb bot || negb (set_and_nonempty (TELEGRAM_CHAT_ID config)) then
    log_error [Lit "Telegram configuration missing, cannot send message"] ;;
    ret (SendReturned false)
  else
    emit (ApiSendMessage (interpolate (TELEGRAM_CHAT_ID config)) msg "HTML") ;;
    ret SendAwaitingApi.

(** Lines 75 to 80, once the API call has settled. *)
Definition sendTelegramMessage_settled (r : api_result) : M bool :=
  match r with
  | ApiFulfilled =>
      log_info [Lit "Telegram message sent successfully"] ;;
      ret true
  | ApiRejected e =>
      log_error [Lit "Failed to send Telegram message: "; Lit (message e)] ;;
      ret false
  end.

(** *** formatResponse (lines 88 to 99)

    [JSON.stringify] does not throw on a parsed JSON document, so the
    [catch] of line 95 has nothing to handle. *)
Definition formatResponse (responseData : value) : piece :=
  if typeof_object responseData then JSON_stringify responseData
  else String_of responseData.

(** *** pollHttpEndpoint (lines 104 to 147) *)

(** Lines 122 and 125: the candidate document and its identifier. *)
Definition candidate_of (body : value) : outcome (value * value) :=
  match get_named body "data" with
  | Throw e => Throw e
  | Return seq =>
      match get_index seq 0 with
      | Throw e => Throw e
      | Return responseData =>
          match get_named responseData "id" with
          | Throw e => Throw e
          | Return currentId => Return (responseData, currentId)
          end
      end
  end.

(** Where an invocation of [pollHttpEndpoint] stands between two
    stretches of synchronous code: at the [await] of line 108, at the
    [await] of line 134 (with the local variables that are live across
    it), or returned. *)
Inductive poll_pc : Type :=
| AwaitingGet
| AwaitingSend (sending : send_pc) (responseData currentId : value)
               (hasChanged : bool)
| PollReturned.

(** Lines 105 to 111, up to the [await]. *)
Definition poll_start : M poll_pc :=
  log_info [Lit "Starting to poll "; Lit (interpolate (API_URL config))] ;;
  emit (AxiosGet (API_URL config) (REQUEST_HEADERS config)
                 (PrimFloat.mul (REQUEST_TIMEOUT config) 1000%float)) ;;
  ret AwaitingGet.

(** Lines 137 to 141. *)
Definition poll_commit (responseData currentId : value) (hasChanged : bool)
  : M unit :=
  set_lastResponse responseData ;;
  set_lastResponseId currentId ;;
  log_info [Lit "Polling completed, data ";
            Lit (if hasChanged then "updated" else "unchanged")].

(** Lines 131 to 133; [now] is [new Date().toLocaleString()]. *)
Definition update_message (now : string) (hasChanged : bool)
    (responseData : value) : text :=
  let timestamp := now in
  let status := if hasChanged then "🔄 Data updated" else "✅ Data unchanged" in
  [Lit timestamp; Lit " "; Lit status; Lit newline; Lit newline;
   formatResponse responseData].

(** Lines 113 to 135 and, when nothing is sent, on to line 141. *)
Definition poll_on_response (now : string) (r : response) : M poll_pc :=
  if negb (PrimFloat.eqb (status r) 200%float) then
    log_error [Lit "HTTP request failed: Status code "; Num (status r)] ;;
    ret PollReturned
  else
    c <- lift (candidate_of (data r)) ;;
    let responseData := fst c in
    let currentId := snd c in
    g <- read ;;
    let hasChanged := negb (strict_equals currentId (lastResponseId g)) in
    if hasChanged then
      sending <- sendTelegramMessage_start
                   (update_message now hasChanged responseData) ;;
      ret (AwaitingSend sending responseData currentId hasChanged)
    else
      poll_commit responseData currentId hasChanged ;;
      ret PollReturned.

(** The [catch] of lines 143 to 146. *)
Definition poll_catch (e : error) : M poll_pc :=
  log_error [Lit "HTTP request exception: "; Lit (message e)] ;;
  ret PollReturned.

(** Resuming at line 108 when the request has settled; [now] is what
    [new Date().toLocaleString()] gives during this stretch. *)
Definition poll_get_settled (now : string) (f : fetch_result) : M poll_pc :=
  try_catch
    (match f with
     | GetRejected e => throw e
     | GetFulfilled r => poll_on_response now r
     end)
    poll_catch.

(** Resuming at line 134 when [sendTelegramMessage] has settled. *)
Definition poll_send_settled (sending : send_pc) (a : api_result)
    (responseData currentId : value) (hasChanged : bool) : M poll_pc :=
  try_catch
    (match sending with
     | SendReturned ok => ret ok
     | SendAwaitingApi => sendTelegramMessage_settled a
     end ;;
     poll_commit responseData currentId hasChanged ;;
     ret PollReturned)
    poll_catch.

(** What one poll cycle takes from the outside. *)
Record cycle_env : Type := mkEnv {
  fetched : fetch_result;
  clock : string;
  delivery : api_result
}.

(** One invocation of [pollHttpEndpoint] run from its call to its
    return with no other code in between. *)
Definition pollHttpEndpoint (env : cycle_env) : M unit :=
  poll_start ;;
  pc <- poll_get_settled (clock env) (fetched env) ;;
  match pc with
  | AwaitingSend sending responseData currentId hasChanged =>
      poll_send_settled sending (delivery env) responseData currentId hasChanged ;;
      ret tt
  | _ => ret tt
  end.

(** A sequence of poll cycles, one after the other. *)
Fixpoint poll_cycles (envs : list cycle_env) (g : globals)
  : globals * list event :=
  match envs with
  | [] => (g, [])
  | env :: rest =>
      match pollHttpEndpoint env g with
      | (_, g1, t1) =>
          match poll_cycles rest g1 with
          | (g2, t2) => (g2, t1 ++ t2)
          end
      end
  end.

(** *** The bot commands (lines 152 to 202) and main (lines 207 to 233)

    The handlers, the scheduled job and [main] all run on the one event
    loop of the process.  A task is an activation of one of them,
    suspended at an [await]; the loop runs one stretch of synchronous
    code at a time, and between two stretches any other task may be
    resumed or started. *)

(** Who awaits the invocation of [pollHttpEndpoint]: [main] (line 220),
    the scheduled job (line 224) or the handler of [/check] (line 194). *)
Inductive caller : Type :=
| CalledByMain
| CalledByJob
| CalledByCheck (ctx : nat).

Inductive command : Type := CmdStart | CmdHelp | CmdStatus | CmdCheck.

(** The [ctx.reply] a handler is waiting for. *)
Inductive reply_pc : Type :=
| ReplyOfStart
| ReplyOfHelp
| ReplyOfStatus
| ReplyRunningCheck
| ReplyCheckCompleted.

Inductive task : Type :=
| InPoll (c : caller) (pc : poll_pc)
| InReply (ctx : nat) (pc : reply_pc)
| Ended
| Escaped (e : error).

Definition helpMessage : text :=
  [Lit newline; Lit "🤖 <b>HTTP Polling Bot Help</b>"; Lit newline; Lit newline;
   Lit "<b>Command List:</b>"; Lit newline;
   Lit "/start - Start the bot"; Lit newline;
   Lit "/help - Show help information"; Lit newline;
   Lit "/status - Check bot status"; Lit newline;
   Lit "/check - Run a check immediately"; Lit newline; Lit "    "].

(** Lines 178 to 185; [now] is what [new Date().toLocaleString()] gives
    when the handler runs. *)
Definition statusMessage (g : globals) (now : string) : text :=
  [Lit newline; Lit "🔍 <b>Bot Status</b>"; Lit newline; Lit newline;
   Lit "⏱ Polling interval: "; Num (REQUEST_INTERVAL config); Lit " seconds";
   Lit newline;
   Lit "🔗 API address: "; Lit (interpolate (API_URL config)); Lit newline;
   Lit "📝 Notify only on data change: ";
   Lit (if NOTIFY_ON_CHANGE_ONLY config then "Yes" else "No"); Lit newline;
   Lit "🕒 Last update time: ";
   Lit (if truthy (lastResponse g) then now else "No data retrieved yet");
   Lit newline; Lit "    "].

(** A handler from its start to its first [await]. *)
Definition command_start (cmd : command) (ctx : nat) (now : string) : M task :=
  match cmd with
  | CmdStart =>
      emit (Reply ctx [Lit "👋 Welcome to HTTP Polling Bot! I will regularly check the API and send update notifications."] None) ;;
      ret (InReply ctx ReplyOfStart)
  | CmdHelp =>
      emit (Reply ctx helpMessage (Some "HTML")) ;;
      ret (InReply ctx ReplyOfHelp)
  | CmdStatus =>
      g <- read ;;
      emit (Reply ctx (statusMessage g now) (Some "HTML")) ;;
      ret (InReply ctx ReplyOfStatus)
  | CmdCheck =>
      emit (Reply ctx [Lit "🔍 Running manual check..."] None) ;;
      ret (InReply ctx ReplyRunningCheck)
  end.

(** Lines 199 to 201; [err] is the error as grammY hands it over. *)
Definition bot_catch (err : error) : M unit :=
  log_error [Lit "Bot error: "; Lit (message err)].

(** A handler resumed after its [ctx.reply] has settled. When the reply
    is rejected, [a] carries the error in the form in which grammY hands
    it to the handler installed by [bot.catch] (a [BotError] around the
    rejection, whose message starts with the name of the error and
    [in middleware:]). *)
Definition reply_settled (ctx : nat) (pc : reply_pc) (a : api_result) : M task :=
  match a with
  | ApiRejected e => bot_catch e ;; ret Ended
  | ApiFulfilled =>
      match pc with
      | ReplyOfStart => log_info [Lit "User sent /start command"] ;; ret Ended
      | ReplyOfHelp => log_info [Lit "User sent /help command"] ;; ret Ended
      | ReplyOfStatus => log_info [Lit "User sent /status command"] ;; ret Ended
      | ReplyRunningCheck =>
          log_info [Lit "User sent /check command, executing manual check"] ;;
          pc' <- poll_start ;;
          ret (InPoll (CalledByCheck ctx) pc')
      | ReplyCheckCompleted => ret Ended
      end
  end.

(** What the caller does once [pollHttpEndpoint] has returned: lines 222
    to 227 of [main], nothing in the job, line 195 in [/check]. *)
Definition poll_returned (c : caller) : M task :=
  match c with
  | CalledByMain =>
      emit (ScheduleJob [Lit "*/"; Num (REQUEST_INTERVAL config); Lit " * * * * *"]) ;;
      log_info [Lit "Scheduled task set up, polling every ";
                Num (REQUEST_INTERVAL config); Lit " seconds"] ;;
      ret Ended
  | CalledByJob => ret Ended
  | CalledByCheck ctx =>
      emit (Reply ctx [Lit "✅ Manual check completed"] None) ;;
      ret (InReply ctx ReplyCheckCompleted)
  end.

(** An error that leaves [pollHttpEndpoint]: [main] logs it (lines 231
    to 233), the bot hands it to [bot.catch], the job has no handler. *)
Definition poll_threw (c : caller) (e : error) : M task :=
  match c with
  | CalledByMain =>
      log_error [Lit "Program startup failed: "; Lit (message e)] ;; ret Ended
  | CalledByJob => ret (Escaped e)
  | CalledByCheck _ => bot_catch e ;; ret Ended
  end.

(** One stretch of an invocation of [pollHttpEndpoint], then its caller
    when the invocation is over. *)
Definition poll_stretch (c : caller) (m : M poll_pc) : M task :=
  try_catch
    (pc <- m ;;
     match pc with
     | PollReturned => poll_returned c
     | _ => ret (InPoll c pc)
     end)
    (poll_threw c).

(** Lines 50 to 56, then [main] up to the [await] of line 220. The
    call [bot.start()] is recorded as an event; the promise it returns
    is not awaited by the program, and how it settles is not part of
    the model. *)
Definition main_start : M task :=
  init_bot ;;
  log_info [Lit "HTTP polling service started"] ;;
  (if bot then emit BotStart ;; log_info [Lit "Telegram bot started"]
   else ret tt) ;;
  poll_stretch CalledByMain poll_start.

(** A promise settling: the request of line 108, the awaited
    [sendTelegramMessage] of line 134, a [ctx.reply]. *)
Inductive settlement : Type :=
| GetSettled (now : string) (f : fetch_result)
| SendSettled (a : api_result)
| ReplySettled (a : api_result).

(** What the event loop is given to run next. *)
Inductive action : Type :=
| Tick
| Command (cmd : command) (ctx : nat) (now : string)
| Settle (i : nat) (s : settlement).

Record system : Type := mkSystem {
  vars : globals;
  tasks : list task;
  trace : list event
}.

(** The job fires only once [schedule.scheduleJob] has been called. *)
Definition is_ScheduleJob (e : event) : bool :=
  match e with
  | ScheduleJob _ => true
  | _ => false
  end.

Definition job_scheduled (sys : system) : bool :=
  existsb is_ScheduleJob (trace sys).

Definition task_of (o : outcome task) : task :=
  match o with
  | Return t => t
  | Throw e => Escaped e
  end.

(** Run a stretch as a new task. *)
Definition spawn (m : M task) (sys : system) : system :=
  match m (vars sys) with
  | (o, g, t) => mkSystem g (tasks sys ++ [task_of o]) (trace sys ++ t)
  end.

Fixpoint replace_nth {A} (i : nat) (x : A) (l : list A) : list A :=
  match l, i with
  | [], _ => []
  | _ :: rest, O => x :: rest
  | y :: rest, S j => y :: replace_nth j x rest
  end.

(** Run a stretch as the continuation of task [i]. *)
Definition continue (i : nat) (m : M task) (sys : system) : system :=
  match m (vars sys) with
  | (o, g, t) => mkSystem g (replace_nth i (task_of o) (tasks sys)) (trace sys ++ t)
  end.

Definition resume_poll (pc : poll_pc) (s : settlement) : option (M poll_pc) :=
  match pc, s with
  | AwaitingGet, GetSettled now f => Some (poll_get_settled now f)
  | AwaitingSend sending responseData currentId hasChanged, SendSettled a =>
      Some (poll_send_settled sending a responseData currentId hasChanged)
  | _, _ => None
  end.

(** One turn of the event loop; [None] when the action cannot occur.
    [Tick] is the scheduled job firing, which takes a call of
    [schedule.scheduleJob] before it; whether node-schedule fires at all
    for the rule it was given is not decided here. A [Command] is
    accepted in every state; grammY's long polling starts a handler only
    when the handler before it is over, so the runs of the program are
    among those of [step], and the states in which the program does
    start a handler are those with no handler in flight. *)
Definition step (sys : system) (a : action) : option system :=
  match a with
  | Tick =>
      if job_scheduled sys
      then Some (spawn (poll_stretch CalledByJob poll_start) sys)
      else None
  | Command cmd ctx now =>
      if bot then Some (spawn (command_start cmd ctx now) sys) else None
  | Settle i s =>
      match nth_error (tasks sys) i with
      | Some (InPoll c pc) =>
          match resume_poll pc s with
          | Some m => Some (continue i (poll_stretch c m) sys)
          | None => None
          end
      | Some (InReply ctx pc) =>
          match s with
          | ReplySettled a => Some (continue i (reply_settled ctx pc a) sys)
          | _ => None
          end
      | _ => None
      end
  end.

Fixpoint run (sys : system) (acts : list action) : option system :=
  match acts with
  | [] => Some sys
  | a :: rest =>
      match step sys a with
      | Some sys' => run sys' rest
      | None => None
      end
  end.

(** The process when [main] has reached its first [await]. *)
Definition boot : system := spawn main_start (mkSystem initial [] []).

End Program.

(* ================================================================== *)
(** ** Reading a trace *)

Fixpoint collect {A B} (f : A -> option B) (l : list A) : list B :=
  match l with
  | [] => []
  | x :: rest =>
      match f x with
      | Some y => y :: collect f rest
      | None => collect f rest
      end
  end.

(** The messages handed to [bot.api.sendMessage]. *)
Definition notification (e : event) : option text :=
  match e with
  | ApiSendMessage _ msg _ => Some msg
  | _ => None
  end.

Definition notifications (t : list event) : list text := collect notification t.

(** The value of [hasChanged] a completed cycle reports at line 141. *)
Definition completion (e : event) : option bool :=
  match e with
  | LogInfo [Lit p; Lit s] =>
      if String.eqb p "Polling completed, data "
      then Some (String.eqb s "updated")
      else None
  | _ => None
  end.

Definition completions (t : list event) : list bool := collect completion t.

(** The URLs [axios.get] was called with. *)
Definition request (e : event) : option (option string) :=
  match e with
  | AxiosGet url _ _ => Some url
  | _ => None
  end.

Definition requests (t : list event) : list (option string) := collect request t.

(** The trace of a call of [sendTelegramMessage] from its start to its
    return, the API call settling as [a]. *)
Definition sendTelegramMessage_trace (config : Config) (msg : text)
    (a : api_result) : list event :=
  if negb (bot config) || negb (set_and_nonempty (TELEGRAM_CHAT_ID config)) then
    [LogError [Lit "Telegram configuration missing, cannot send message"]]
  else
    [ApiSendMessage (interpolate (TELEGRAM_CHAT_ID config)) msg "HTML";
     match a with
     | ApiFulfilled => LogInfo [Lit "Telegram message sent successfully"]
     | ApiRejected e =>
         LogError [Lit "Failed to send Telegram message: "; Lit (message e)]
     end].

(** The trace of lines 105 to 111. *)
Definition request_trace (config : Config) : list event :=
  [LogInfo [Lit "Starting to poll "; Lit (interpolate (API_URL config))];
   AxiosGet (API_URL config) (REQUEST_HEADERS config)
            (PrimFloat.mul (REQUEST_TIMEOUT config) 1000%float)].

(** The result of the fetch of a cycle, in the three kinds the cycle
    tells apart: status 200 and a body lines 122 to 125 can read (the
    candidate document and its identifier), a status other than 200
    (line 114), an exception that reaches the [catch] of line 143. *)
Inductive PollResult : Type :=
| Success (responseData currentId : value)
| HttpError (statusCode : float)
| TransportError (msg : string).

Definition poll_result (env : cycle_env) : PollResult :=
  match fetched env with
  | GetRejected e => TransportError (message e)
  | GetFulfilled r =>
      if PrimFloat.eqb (status r) 200%float then
        match candidate_of (data r) with
        | Return (d, i) => Success d i
        | Throw e => TransportError (message e)
        end
      else HttpError (status r)
  end.

Definition failed (p : PollResult) : bool :=
  match p with
  | Success _ _ => false
  | _ => true
  end.

(** The log line of a failed cycle (lines 115 and 144). *)
Definition failure_line (p : PollResult) : text :=
  match p with
  | HttpError c => [Lit "HTTP request failed: Status code "; Num c]
  | TransportError m => [Lit "HTTP request exception: "; Lit m]
  | Success _ _ => []
  end.

(** The candidate of the most recent successful cycle of a sequence. *)
Fixpoint last_success (envs : list cycle_env) : option (value * value) :=
  match envs with
  | [] => None
  | env :: rest =>
      match last_success rest with
      | Some c => Some c
      | None =>
          match poll_result env with
          | Success d i => Some (d, i)
          | _ => None
          end
      end
  end.

(** The notifier can send: the bot exists and the chat is known. *)
Definition notifier_ready (config : Config) : bool :=
  bot config && set_and_nonempty (TELEGRAM_CHAT_ID config).

Definition with_delivery (env : cycle_env) (a : api_result) : cycle_env :=
  mkEnv (fetched env) (clock env) a.

(** A 200 response whose body has no [data] field, and one whose [data]
    is an empty array. *)
Definition lacks_data (body : value) : bool :=
  match body with
  | VObject _ props =>
      match own_property "data" props with
      | VUndefined => true
      | _ => false
      end
  | _ => true
  end.

Definition empty_data (body : value) : bool :=
  match body with
  | VObject _ props =>
      match own_property "data" props with
      | VArray _ [] => true
      | _ => false
      end
  | _ => false
  end.

(** *** Invariants of the event loop *)

(** The two variables hold a document and its [id], or are both as at
    the start. *)
Definition coupled (g : globals) : Prop :=
  g = initial \/ get_named (lastResponse g) "id" = Return (lastResponseId g).

(** The identifier an invocation suspended at line 134 carries is the
    [id] of the document it carries. *)
Definition frame_ok (t : task) : Prop :=
  match t with
  | InPoll _ (AwaitingSend _ d i _) => get_named d "id" = Return i
  | _ => True
  end.

(** The states of the process: those the event loop can reach from
    [boot]. *)
Definition reachable (config : Config) (sys : system) : Prop :=
  exists acts, run config (boot config) acts = Some sys.

(** What a stretch of code may do to the variables: leave them, or
    write a document and its [id] together. *)
Definition left_or_committed (g g' : globals) : Prop :=
  g' = g \/ exists d i, get_named d "id" = Return i /\ g' = mkGlobals i d.

(** Lines 50 to 56 and 208 to 217. *)
Definition startup_trace (config : Config) : list event :=
  (if bot config then [LogInfo [Lit "Telegram bot initialized"]]
   else [LogError [Lit "Missing Telegram bot token, unable to initialize bot"]]) ++
  [LogInfo [Lit "HTTP polling service started"]] ++
  (if bot config then [BotStart; LogInfo [Lit "Telegram bot started"]] else []).

(** *** Sample data *)

Definition sample_config : Config :=
  mkConfig (Some "https://api.example.com/items") 300 30 None
           (Some "123:abc") (Some "42") true.

Definition document (ref : nat) (id : value) (v : float) : value :=
  VObject ref [("id", id); ("value", VNumber v)].

Definition body_of (ref : nat) (docs : list value) : value :=
  VObject ref [("data", VArray (S ref) docs)].

Definition ok_response (ref : nat) (d : value) : fetch_result :=
  GetFulfilled (mkResponse 200 (body_of ref [d])).

Definition cycle_of (now : string) (f : fetch_result) : cycle_env :=
  mkEnv f now ApiFulfilled.

Definition r1_10 : value := document 2 (VString "r1") 10.
Definition r1_99 : value := document 12 (VString "r1") 99.
Definition r2_99 : value := document 22 (VString "r2") 99.
Definition id_null : value := document 32 VNull 1.

Definition no_url_config : Config :=
  mkConfig None 300 30 None None None true.

(** The first cycle stores [r1]; then a tick of the job and a [/check]
    both fetch [r2] before either has stored it. *)
Definition overlapping_run : list action :=
  [Settle 0 (GetSettled "09:00:00" (ok_response 0 r1_10));
   Settle 0 (SendSettled ApiFulfilled);
   Tick;
   Command CmdCheck 7 "09:05:00";
   Settle 2 (ReplySettled ApiFulfilled);
   Settle 1 (GetSettled "09:05:01" (ok_response 20 r2_99));
   Settle 2 (GetSettled "09:05:02" (ok_response 60 (document 62 (VString "r2") 99)))].

Definition overlapping_end : list action :=
  [Settle 1 (SendSettled ApiFulfilled);
   Settle 2 (SendSettled ApiFulfilled)].

(** The process in the middle of the overlap. *)
Definition overlapped : system :=
  match run sample_config (boot sample_config) overlapping_run with
  | Some sys => sys
  | None => boot sample_config
  end.

(** A document is stored at nine; the status is asked at half past five. *)
Definition status_run : list action :=
  [Settle 0 (GetSettled "09:00:00" (ok_response 0 r1_10));
   Settle 0 (SendSettled ApiFulfilled);
   Command CmdStatus 1 "17:30:00"].

(** *** More of the program, and more ways to read a trace *)

(** [sendTelegramMessage] (lines 67 to 81) from its call to its return,
    the promise of [bot.api.sendMessage] settling as [a]. *)
Definition sendTelegramMessage (config : Config) (msg : text) (a : api_result)
  : M bool :=
  sending <- sendTelegramMessage_start config msg ;;
  match sending with
  | SendReturned ok => ret ok
  | SendAwaitingApi => sendTelegramMessage_settled a
  end.

Definition fulfilled (a : api_result) : bool :=
  match a with
  | ApiFulfilled => true
  | ApiRejected _ => false
  end.

Definition succeeded (env : cycle_env) : bool := negb (failed (poll_result env)).

(** The line that ends a cycle: line 141, line 116 or line 145. *)
Definition outcome_line (e : event) : bool :=
  match e with
  | LogInfo [Lit p; Lit _] => String.eqb p "Polling completed, data "
  | LogError [Lit p; Num _] => String.eqb p "HTTP request failed: Status code "
  | LogError [Lit p; Lit _] => String.eqb p "HTTP request exception: "
  | _ => false
  end.

(** The configuration with another polling interval and another
    notify-on-change flag. *)
Definition with_interval_and_flag (config : Config) (interval : float)
    (flag : bool) : Config :=
  mkConfig (API_URL config) interval (REQUEST_TIMEOUT config)
           (REQUEST_HEADERS config) (TELEGRAM_BOT_TOKEN config)
           (TELEGRAM_CHAT_ID config) flag.

(** A request as the configuration asks for it. *)
Definition request_ok (config : Config) (e : event) : Prop :=
  match e with
  | AxiosGet url headers timeout =>
      url = API_URL config /\ headers = REQUEST_HEADERS config /\
      timeout = PrimFloat.mul (REQUEST_TIMEOUT config) 1000%float
  | _ => True
  end.

(** A Telegram message as line 134 sends it: the notifier is
    configured, the chat is the configured one, the mode is HTML and the
    text is the update message of a document that is neither [undefined]
    nor [null]. *)
Definition message_ok (config : Config) (e : event) : Prop :=
  match e with
  | ApiSendMessage chat msg mode =>
      notifier_ready config = true /\
      chat = interpolate (TELEGRAM_CHAT_ID config) /\
      mode = "HTML" /\
      exists now d, nullish d = false /\ msg = update_message now true d
  | _ => True
  end.

(** The line of line 232. *)
Definition startup_failure (e : event) : bool :=
  match e with
  | LogError (Lit p :: _) => String.eqb p "Program startup failed: "
  | _ => false
  end.

(** What the body of [pollHttpEndpoint] after line 108 may do to the
    outside: log, and send a well-formed message. *)
Definition body_event (config : Config) (e : event) : Prop :=
  match e with
  | LogInfo _ => True
  | LogError _ => startup_failure e = false
  | ApiSendMessage _ _ _ => message_ok config e
  | _ => False
  end.

Definition is_escaped (t : task) : bool :=
  match t with
  | Escaped _ => true
  | _ => false
  end.

Definition called_by_main (t : task) : bool :=
  match t with
  | InPoll CalledByMain _ => true
  | _ => false
  end.

(** The first task is the invocation [main] awaits. The job is not
    scheduled while it runs, and is scheduled once when it is over; no
    other task is an invocation of [main]. *)
Definition main_state (sys : system) : Prop :=
  match tasks sys with
  | [] => False
  | first :: others =>
      ((exists pc, first = InPoll CalledByMain pc /\
                   filter is_ScheduleJob (trace sys) = []) \/
       (first = Ended /\ length (filter is_ScheduleJob (trace sys)) = 1)) /\
      forallb (fun t => negb (called_by_main t)) others = true
  end.

(** An event that is as the configuration and the program's own
    handling of errors allow. *)
Definition well_formed (config : Config) (e : event) : Prop :=
  request_ok config e /\ message_ok config e /\ startup_failure e = false.

(** A task of the bot: a command handler waiting for its reply, or
    the invocation of [pollHttpEndpoint] the handler of [/check] awaits.
    The bot runs one handler at a time. *)
Definition handler_task (t : task) : bool :=
  match t with
  | InReply _ _ => true
  | InPoll (CalledByCheck _) _ => true
  | _ => false
  end.

Definition handler_in_flight (sys : system) : bool :=
  existsb handler_task (tasks sys).

(** A reply as the handlers of lines 156 to 196 send it: one of the
    five texts, in HTML mode for [/help] and [/status] only. *)
Definition reply_ok (config : Config) (e : event) : Prop :=
  match e with
  | Reply _ msg mode =>
      (msg = [Lit "👋 Welcome to HTTP Polling Bot! I will regularly check the API and send update notifications."]
       /\ mode = None) \/
      (msg = helpMessage /\ mode = Some "HTML") \/
      ((exists g now, msg = statusMessage config g now) /\ mode = Some "HTML") \/
      (msg = [Lit "🔍 Running manual check..."] /\ mode = None) \/
      (msg = [Lit "✅ Manual check completed"] /\ mode = None)
  | _ => True
  end.

(** The events that go to Telegram: the start of the bot, a
    notification, a reply. *)
Definition telegram_call (e : event) : bool :=
  match e with
  | BotStart => true
  | ApiSendMessage _ _ _ => true
  | Reply _ _ _ => true
  | _ => false
  end.

(** The sample process when the first cycle is over and a tick has
    started an invocation that is still waiting for its response. *)
Definition job_in_flight : system :=
  match run sample_config (boot sample_config) (firstn 3 overlapping_run) with
  | Some sys => sys
  | None => boot sample_config
  end.

(* ================================================================== *)
(** ** The cycle, case by case *)

Ltac run_cycle :=
  cbv [pollHttpEndpoint poll_start poll_get_settled poll_on_response
       poll_send_settled poll_commit poll_catch sendTelegramMessage_start
       sendTelegramMessage_settled sendTelegramMessage_trace request_trace
       try_catch bind ret throw lift emit read log_info log_error
       set_lastResponse set_lastResponseId
       lastResponse lastResponseId fst snd negb app].

Lemma poll_rejected config env g e :
  fetched env = GetRejected e ->
  pollHttpEndpoint config env g =
    (Return tt, g,
     request_trace config ++
     [LogError [Lit "HTTP request exception: "; Lit (message e)]]).
Proof.
  intros H. run_cycle. rewrite H. reflexivity.
Qed.

Lemma poll_bad_status config env g r :
  fetched env = GetFulfilled r ->
  PrimFloat.eqb (status r) 200%float = false ->
  pollHttpEndpoint config env g =
    (Return tt, g,
     request_trace config ++
     [LogError [Lit "HTTP request failed: Status code "; Num (status r)]]).
Proof.
  intros H H200. run_cycle. rewrite H, H200. reflexivity.
Qed.

Lemma poll_malformed config env g r e :
  fetched env = GetFulfilled r ->
  PrimFloat.eqb (status r) 200%float = true ->
  candidate_of (data r) = Throw e ->
  pollHttpEndpoint config env g =
    (Return tt, g,
     request_trace config ++
     [LogError [Lit "HTTP request exception: "; Lit (message e)]]).
Proof.
  intros H H200 Hc. run_cycle. rewrite H, H200, Hc. reflexivity.
Qed.

Lemma poll_unchanged config env g r d i :
  fetched env = GetFulfilled r ->
  PrimFloat.eqb (status r) 200%float = true ->
  candidate_of (data r) = Return (d, i) ->
  strict_equals i (lastResponseId g) = true ->
  pollHttpEndpoint config env g =
    (Return tt, mkGlobals i d,
     request_trace config ++
     [LogInfo [Lit "Polling completed, data "; Lit "unchanged"]]).
Proof.
  intros H H200 Hc Heq. run_cycle. rewrite H, H200, Hc.
  cbv [fst snd lastResponseId]. destruct g as [i0 d0]. cbv [lastResponseId] in Heq.
  rewrite Heq. reflexivity.
Qed.

Lemma poll_changed config env g r d i :
  fetched env = GetFulfilled r ->
  PrimFloat.eqb (status r) 200%float = true ->
  candidate_of (data r) = Return (d, i) ->
  strict_equals i (lastResponseId g) = false ->
  pollHttpEndpoint config env g =
    (Return tt, mkGlobals i d,
     request_trace config ++
     sendTelegramMessage_trace config (update_message (clock env) true d)
                               (delivery env) ++
     [LogInfo [Lit "Polling completed, data "; Lit "updated"]]).
Proof.
  intros H H200 Hc Hneq. run_cycle. rewrite H, H200, Hc.
  cbv [fst snd lastResponseId]. destruct g as [i0 d0]. cbv [lastResponseId] in Hneq.
  rewrite Hneq.
  destruct (bot config); destruct (set_and_nonempty (TELEGRAM_CHAT_ID config));
    cbv [negb orb]; try reflexivity;
    destruct (delivery env); reflexivity.
Qed.

Lemma poll_result_Success env d i :
  poll_result env = Success d i ->
  exists r, fetched env = GetFulfilled r /\
            PrimFloat.eqb (status r) 200%float = true /\
            candidate_of (data r) = Return (d, i).
Proof.
  unfold poll_result. destruct (fetched env) as [e|r]; [discriminate|].
  destruct (PrimFloat.eqb (status r) 200) eqn:H200; [|discriminate].
  destruct (candidate_of (data r)) as [[d' i']|e] eqn:Hc; [|discriminate].
  intros H; inversion H; subst. exists r. auto.
Qed.

(** A failed cycle: the state is the one before, one error line is logged. *)
Lemma poll_failed config env g :
  failed (poll_result env) = true ->
  pollHttpEndpoint config env g =
    (Return tt, g,
     request_trace config ++ [LogError (failure_line (poll_result env))]).
Proof.
  unfold poll_result. destruct (fetched env) as [e|r] eqn:Hf.
  - intros _. now apply poll_rejected.
  - destruct (PrimFloat.eqb (status r) 200) eqn:H200.
    + destruct (candidate_of (data r)) as [[d i]|e] eqn:Hc; [discriminate|].
      intros _. now apply poll_malformed with (r := r).
    + intros _. now apply poll_bad_status.
Qed.

(** A successful cycle: the candidate is stored, and the notifier is
    called exactly when the identifier differs from the stored one. *)
Lemma poll_succeeded config env g d i :
  poll_result env = Success d i ->
  pollHttpEndpoint config env g =
    (Return tt, mkGlobals i d,
     request_trace config ++
     (if strict_equals i (lastResponseId g) then []
      else sendTelegramMessage_trace config
             (update_message (clock env) true d) (delivery env)) ++
     [LogInfo [Lit "Polling completed, data ";
               Lit (if strict_equals i (lastResponseId g)
                    then "unchanged" else "updated")]]).
Proof.
  intros H. destruct (poll_result_Success _ _ _ H) as (r & Hf & H200 & Hc).
  destruct (strict_equals i (lastResponseId g)) eqn:Heq.
  - now apply poll_unchanged with (r := r).
  - now apply poll_changed with (r := r).
Qed.

Lemma candidate_of_id body d i :
  candidate_of body = Return (d, i) -> get_named d "id" = Return i.
Proof.
  unfold candidate_of.
  destruct (get_named body "data") as [seq|]; [|discriminate].
  destruct (get_index seq 0) as [d'|]; [|discriminate].
  destruct (get_named d' "id") as [i'|] eqn:Hid; [|discriminate].
  intros H; inversion H; subst. exact Hid.
Qed.

Lemma collect_app {A B} (f : A -> option B) (l1 l2 : list A) :
  collect f (l1 ++ l2) = collect f l1 ++ collect f l2.
Proof.
  induction l1 as [|x l1 IH]; simpl; [reflexivity|].
  destruct (f x); simpl; now rewrite IH.
Qed.

Lemma notifications_send config msg a :
  notifications (sendTelegramMessage_trace config msg a) =
  if notifier_ready config then [msg] else [].
Proof.
  unfold sendTelegramMessage_trace, notifier_ready.
  destruct (bot config), (set_and_nonempty (TELEGRAM_CHAT_ID config)); simpl;
    try reflexivity.
  destruct a; reflexivity.
Qed.

Lemma completions_send config msg a :
  completions (sendTelegramMessage_trace config msg a) = [].
Proof.
  unfold sendTelegramMessage_trace.
  destruct (negb (bot config) || negb (set_and_nonempty (TELEGRAM_CHAT_ID config)));
    [reflexivity|].
  destruct a; reflexivity.
Qed.

Lemma notifications_request config : notifications (request_trace config) = [].
Proof. reflexivity. Qed.

Lemma completions_request config : completions (request_trace config) = [].
Proof.
  unfold request_trace, completions. simpl. reflexivity.
Qed.

Lemma poll_result_id env d i :
  poll_result env = Success d i -> get_named d "id" = Return i.
Proof.
  intros H. destruct (poll_result_Success _ _ _ H) as (r & _ & _ & Hc).
  now apply candidate_of_id with (body := data r).
Qed.

Lemma completions_app t1 t2 :
  completions (t1 ++ t2) = completions t1 ++ completions t2.
Proof. apply collect_app. Qed.

Lemma notifications_app t1 t2 :
  notifications (t1 ++ t2) = notifications t1 ++ notifications t2.
Proof. apply collect_app. Qed.

Lemma completions_succeeded config env g d i :
  poll_result env = Success d i ->
  completions (snd (pollHttpEndpoint config env g)) =
    [negb (strict_equals i (lastResponseId g))].
Proof.
  intros H. rewrite (poll_succeeded config env g d i H). cbn [snd].
  rewrite !completions_app, completions_request.
  destruct (strict_equals i (lastResponseId g)).
  - reflexivity.
  - rewrite completions_send. reflexivity.
Qed.

Lemma notifications_succeeded config env g d i :
  poll_result env = Success d i ->
  notifications (snd (pollHttpEndpoint config env g)) =
    if strict_equals i (lastResponseId g) then []
    else if notifier_ready config
         then [update_message (clock env) true d] else [].
Proof.
  intros H. rewrite (poll_succeeded config env g d i H). cbn [snd].
  rewrite !notifications_app, notifications_request.
  destruct (strict_equals i (lastResponseId g)).
  - reflexivity.
  - rewrite notifications_send.
    destruct (notifier_ready config); reflexivity.
Qed.

Lemma globals_succeeded config env g d i :
  poll_result env = Success d i ->
  snd (fst (pollHttpEndpoint config env g)) = mkGlobals i d.
Proof.
  intros H. now rewrite (poll_succeeded config env g d i H).
Qed.

(** No error leaves a poll cycle: whatever the outside gives, the
    invocation returns. *)
Lemma pollHttpEndpoint_returns config env g :
  fst (fst (pollHttpEndpoint config env g)) = Return tt.
Proof.
  destruct (poll_result env) as [d i|c|m] eqn:Hp.
  - now rewrite (poll_succeeded config env g d i Hp).
  - rewrite poll_failed by (rewrite Hp; reflexivity). reflexivity.
  - rewrite poll_failed by (rewrite Hp; reflexivity). reflexivity.
Qed.

(** On strings [===] is equality of the characters. *)
Lemma strict_equals_VString a b :
  strict_equals (VString a) (VString b) = true <-> a = b.
Proof. cbn. apply String.eqb_eq. Qed.

(** [NaN] is the only value that is not strictly equal to itself. *)
Lemma strict_equals_irreflexive i :
  strict_equals i i = false ->
  exists x, i = VNumber x /\ PrimFloat.is_nan x = true.
Proof.
  destruct i as [| | b | x | s | r elems | r props]; cbn; try discriminate.
  - now rewrite Bool.eqb_reflx.
  - intros H. exists x. split; [reflexivity|]. unfold PrimFloat.is_nan.
    now rewrite H.
  - now rewrite String.eqb_refl.
  - now rewrite Nat.eqb_refl.
  - now rewrite Nat.eqb_refl.
Qed.

(** [===] is symmetric. On numbers this is the symmetry of the IEEE
    comparison, read off its specification. *)
Lemma SFcompare_Eq_sym f1 f2 :
  SFcompare f1 f2 = Some Eq -> SFcompare f2 f1 = Some Eq.
Proof.
  destruct f1 as [s1|s1| |s1 m1 e1], f2 as [s2|s2| |s2 m2 e2]; cbn;
    try discriminate; try reflexivity;
    try (destruct s1, s2; cbn; (discriminate || reflexivity)).
  change (PosDef.Pos.compare_cont Eq m1 m2) with (Pos.compare m1 m2).
  change (PosDef.Pos.compare_cont Eq m2 m1) with (Pos.compare m2 m1).
  destruct s1, s2; try discriminate;
    (destruct (Z.compare e1 e2) eqn:He; try discriminate);
    apply Z.compare_eq in He; subst; rewrite Z.compare_refl;
    (destruct (Pos.compare m1 m2) eqn:Hm; try discriminate);
    apply Pos.compare_eq in Hm; subst; rewrite Pos.compare_refl; reflexivity.
Qed.

Lemma float_eqb_sym x y : PrimFloat.eqb x y = PrimFloat.eqb y x.
Proof.
  rewrite !eqb_spec. unfold SFeqb.
  destruct (SFcompare (Prim2SF x) (Prim2SF y)) as [[| |]|] eqn:H1;
    [now rewrite (SFcompare_Eq_sym _ _ H1)| | |];
    (destruct (SFcompare (Prim2SF y) (Prim2SF x)) as [[| |]|] eqn:H2;
     try reflexivity;
     rewrite (SFcompare_Eq_sym _ _ H2) in H1; discriminate).
Qed.

Lemma strict_equals_sym a b : strict_equals a b = strict_equals b a.
Proof.
  destruct a, b; cbn; try reflexivity.
  - destruct b, b0; reflexivity.
  - apply float_eqb_sym.
  - apply String.eqb_sym.
  - apply Nat.eqb_sym.
  - apply Nat.eqb_sym.
Qed.

(** The four example polls of the specification: [r1] is notified, the
    same [r1] with another value is stored silently, [r2] is notified,
    and a timeout leaves [r2] in place. *)
Example four_polls :
  poll_cycles sample_config
    [cycle_of "09:00:00" (ok_response 0 r1_10);
     cycle_of "09:05:00" (ok_response 10 r1_99);
     cycle_of "09:10:00" (ok_response 20 r2_99);
     cycle_of "09:15:00" (GetRejected (mkError "timeout of 30000ms exceeded"))]
    initial
  = (mkGlobals (VString "r2") r2_99,
     request_trace sample_config ++
     sendTelegramMessage_trace sample_config
       (update_message "09:00:00" true r1_10) ApiFulfilled ++
     [LogInfo [Lit "Polling completed, data "; Lit "updated"]] ++
     request_trace sample_config ++
     [LogInfo [Lit "Polling completed, data "; Lit "unchanged"]] ++
     request_trace sample_config ++
     sendTelegramMessage_trace sample_config
       (update_message "09:10:00" true r2_99) ApiFulfilled ++
     [LogInfo [Lit "Polling completed, data "; Lit "updated"]] ++
     request_trace sample_config ++
     [LogError [Lit "HTTP request exception: ";
                Lit "timeout of 30000ms exceeded"]]).
Proof. vm_compute. reflexivity. Qed.

(* ================================================================== *)
(** ** Change detection *)

(** C1. Change detection is by identifier only: when the cycle of
    document [A] has committed, the cycle of document [B] reports
    unchanged and notifies nobody if [B.id === A.id], and reports
    changed and calls the notifier if [B.id !== A.id]; nothing else of
    the two documents, of the state before [A], of the clock or of the
    deliveries enters the decision. *)
Theorem change_detection_by_identifier config g envA envB A idA B idB :
  poll_result envA = Success A idA ->
  poll_result envB = Success B idB ->
  let committed := snd (fst (pollHttpEndpoint config envA g)) in
  let tB := snd (pollHttpEndpoint config envB committed) in
  get_named A "id" = Return idA /\
  get_named B "id" = Return idB /\
  (strict_equals idB idA = true ->
     completions tB = [false] /\ notifications tB = []) /\
  (strict_equals idB idA = false ->
     completions tB = [true] /\
     notifications tB =
       if notifier_ready config then [update_message (clock envB) true B]
       else []).
Proof.
  intros HA HB committed tB.
  assert (Hc : committed = mkGlobals idA A)
    by (unfold committed; now apply globals_succeeded).
  split; [now apply poll_result_id with (env := envA)|].
  split; [now apply poll_result_id with (env := envB)|].
  unfold tB.
  rewrite (completions_succeeded config envB committed B idB HB).
  rewrite (notifications_succeeded config envB committed B idB HB).
  rewrite Hc. cbn [lastResponseId].
  split; intros ->; split; reflexivity.
Qed.

Lemma change_detection_by_identifier_witness :
  completions
    (snd (pollHttpEndpoint sample_config
            (cycle_of "09:05:00" (ok_response 10 r1_99))
            (snd (fst (pollHttpEndpoint sample_config
                         (cycle_of "09:00:00" (ok_response 0 r1_10))
                         initial))))) = [false]
  /\
  completions
    (snd (pollHttpEndpoint sample_config
            (cycle_of "09:10:00" (ok_response 20 r2_99))
            (snd (fst (pollHttpEndpoint sample_config
                         (cycle_of "09:05:00" (ok_response 10 r1_99))
                         initial))))) = [true].
Proof.
  split.
  - apply (change_detection_by_identifier sample_config initial
             (cycle_of "09:00:00" (ok_response 0 r1_10))
             (cycle_of "09:05:00" (ok_response 10 r1_99))
             r1_10 (VString "r1") r1_99 (VString "r1")
             eq_refl eq_refl).
    reflexivity.
  - apply (change_detection_by_identifier sample_config initial
             (cycle_of "09:05:00" (ok_response 10 r1_99))
             (cycle_of "09:10:00" (ok_response 20 r2_99))
             r1_99 (VString "r1") r2_99 (VString "r2")
             eq_refl eq_refl).
    reflexivity.
Defined.

(* ================================================================== *)
(** ** Failed cycles *)

(** C2. Atomicity on failure: in a cycle whose fetch ends as an
    [HttpError] (a status other than 200) or as a [TransportError] (the
    request rejected, or a body the cycle cannot read), the cycle
    returns normally, [lastResponseId] and [lastResponse] are what they
    were before, one error line is logged and no notification is sent. *)
Theorem failed_cycle_keeps_state config env g :
  failed (poll_result env) = true ->
  exists t,
    pollHttpEndpoint config env g = (Return tt, g, t) /\
    t = request_trace config ++ [LogError (failure_line (poll_result env))] /\
    notifications t = [] /\
    completions t = [].
Proof.
  intros H. eexists. split; [now apply poll_failed|].
  split; [reflexivity|].
  rewrite notifications_app, completions_app, completions_request. split; reflexivity.
Qed.

Lemma failed_cycle_keeps_state_witness :
  exists t,
    pollHttpEndpoint sample_config
      (cycle_of "09:15:00" (GetRejected (mkError "timeout of 30000ms exceeded")))
      (mkGlobals (VString "r2") r2_99)
    = (Return tt, mkGlobals (VString "r2") r2_99, t) /\
    t = request_trace sample_config ++
        [LogError (failure_line
           (poll_result
              (cycle_of "09:15:00"
                 (GetRejected (mkError "timeout of 30000ms exceeded")))))] /\
    notifications t = [] /\
    completions t = [].
Proof.
  apply (failed_cycle_keeps_state sample_config
           (cycle_of "09:15:00" (GetRejected (mkError "timeout of 30000ms exceeded")))
           (mkGlobals (VString "r2") r2_99)).
  reflexivity.
Defined.

(** Reading the candidate out of a body without [data], or with an
    empty [data], throws a [TypeError]. *)
Lemma candidate_of_malformed body :
  lacks_data body = true \/ empty_data body = true ->
  exists e, candidate_of body = Throw e.
Proof.
  unfold lacks_data, empty_data, candidate_of.
  destruct body as [| | b | x | s | r elems | r props]; cbn;
    try (intros _; eexists; reflexivity).
  destruct (own_property "data" props) as [| | b | x | s | r' elems | r' ps];
    cbn; intros [H|H]; try discriminate; try (eexists; reflexivity).
  destruct elems; [|discriminate]. cbn. eexists; reflexivity.
Qed.

(** C6. Malformed payload: a response of status 200 whose body has no
    [data] field, or whose [data] is an empty sequence, ends the cycle
    as a [TransportError]: the [TypeError] of the property read is caught
    at line 143 and logged, the cycle returns normally, the state is not
    mutated and no notification is sent. *)
Theorem malformed_payload_is_transport_error config env g r :
  fetched env = GetFulfilled r ->
  PrimFloat.eqb (status r) 200%float = true ->
  lacks_data (data r) = true \/ empty_data (data r) = true ->
  exists e t,
    poll_result env = TransportError (message e) /\
    pollHttpEndpoint config env g = (Return tt, g, t) /\
    t = request_trace config ++
        [LogError [Lit "HTTP request exception: "; Lit (message e)]] /\
    notifications t = [].
Proof.
  intros Hf H200 Hbody.
  destruct (candidate_of_malformed _ Hbody) as [e He].
  exists e. eexists. split.
  - unfold poll_result. now rewrite Hf, H200, He.
  - split; [exact (poll_malformed config env g r e Hf H200 He)|].
    split; [reflexivity|]. rewrite notifications_app. reflexivity.
Qed.

Lemma malformed_payload_is_transport_error_witness :
  exists e t,
    poll_result (cycle_of "09:20:00"
                   (GetFulfilled (mkResponse 200 (body_of 40 []))))
      = TransportError (message e) /\
    pollHttpEndpoint sample_config
      (cycle_of "09:20:00" (GetFulfilled (mkResponse 200 (body_of 40 []))))
      (mkGlobals (VString "r2") r2_99)
      = (Return tt, mkGlobals (VString "r2") r2_99, t) /\
    t = request_trace sample_config ++
        [LogError [Lit "HTTP request exception: "; Lit (message e)]] /\
    notifications t = [].
Proof.
  apply (malformed_payload_is_transport_error sample_config
           (cycle_of "09:20:00" (GetFulfilled (mkResponse 200 (body_of 40 []))))
           (mkGlobals (VString "r2") r2_99)
           (mkResponse 200 (body_of 40 []))).
  - reflexivity.
  - reflexivity.
  - right. reflexivity.
Defined.

(* ================================================================== *)
(** ** Successful cycles *)

(** C4. Unchanged cycles still commit: a successful cycle whose
    identifier equals the stored one sends no notification and reports
    unchanged, and both variables are overwritten with the new candidate
    and its identifier. *)
Theorem unchanged_cycle_commits config env g d i :
  poll_result env = Success d i ->
  strict_equals i (lastResponseId g) = true ->
  exists t,
    pollHttpEndpoint config env g = (Return tt, mkGlobals i d, t) /\
    notifications t = [] /\
    completions t = [false].
Proof.
  intros H Heq. eexists. split; [now apply poll_succeeded|].
  rewrite Heq. cbn [app].
  rewrite notifications_app, completions_app, completions_request.
  split; reflexivity.
Qed.

Lemma unchanged_cycle_commits_witness :
  exists t,
    pollHttpEndpoint sample_config
      (cycle_of "09:05:00" (ok_response 10 r1_99))
      (mkGlobals (VString "r1") r1_10)
    = (Return tt, mkGlobals (VString "r1") r1_99, t) /\
    notifications t = [] /\
    completions t = [false].
Proof.
  apply (unchanged_cycle_commits sample_config
           (cycle_of "09:05:00" (ok_response 10 r1_99))
           (mkGlobals (VString "r1") r1_10) r1_99 (VString "r1")).
  - reflexivity.
  - reflexivity.
Defined.

(** C5. A failing notifier does not block the commit: in a successful
    cycle that detects a change, whether [sendTelegramMessage] returns
    [true], returns [false] because the configuration is missing, or
    returns [false] because the API call threw, the cycle returns
    normally with the candidate and its identifier stored, exactly as
    when the message is delivered. *)
Theorem notifier_failure_keeps_commit config env g d i a :
  poll_result env = Success d i ->
  strict_equals i (lastResponseId g) = false ->
  fst (pollHttpEndpoint config (with_delivery env a) g)
    = (Return tt, mkGlobals i d) /\
  fst (pollHttpEndpoint config (with_delivery env a) g)
    = fst (pollHttpEndpoint config (with_delivery env ApiFulfilled) g) /\
  completions (snd (pollHttpEndpoint config (with_delivery env a) g)) = [true].
Proof.
  intros H Hneq.
  assert (Ha : forall b, poll_result (with_delivery env b) = Success d i)
    by (intros b; exact H).
  rewrite (poll_succeeded config _ g d i (Ha a)).
  rewrite (poll_succeeded config _ g d i (Ha ApiFulfilled)).
  rewrite Hneq. cbn [fst snd].
  split; [reflexivity|]. split; [reflexivity|].
  rewrite !completions_app, completions_request, completions_send. reflexivity.
Qed.

Lemma notifier_failure_keeps_commit_witness :
  fst (pollHttpEndpoint sample_config
         (with_delivery (cycle_of "09:10:00" (ok_response 20 r2_99))
            (ApiRejected (mkError "Too Many Requests")))
         (mkGlobals (VString "r1") r1_99))
  = (Return tt, mkGlobals (VString "r2") r2_99).
Proof.
  apply (notifier_failure_keeps_commit sample_config
           (cycle_of "09:10:00" (ok_response 20 r2_99))
           (mkGlobals (VString "r1") r1_99) r2_99 (VString "r2")
           (ApiRejected (mkError "Too Many Requests"))).
  - reflexivity.
  - reflexivity.
Defined.

(* ================================================================== *)
(** ** Sequences of cycles *)

Lemma poll_cycles_cons config env rest g :
  poll_cycles config (env :: rest) g =
    (fst (poll_cycles config rest (snd (fst (pollHttpEndpoint config env g)))),
     snd (pollHttpEndpoint config env g) ++
     snd (poll_cycles config rest (snd (fst (pollHttpEndpoint config env g))))).
Proof.
  cbn [poll_cycles].
  destruct (pollHttpEndpoint config env g) as [[o g1] t1]. cbn [fst snd].
  destruct (poll_cycles config rest g1) as [g2 t2]. reflexivity.
Qed.

(** Cycles that bring again the stored identifier report unchanged, send
    nothing and keep the identifier. *)
Lemma poll_cycles_same_id config i envs :
  strict_equals i i = true ->
  Forall (fun e => exists d, poll_result e = Success d i) envs ->
  forall g, lastResponseId g = i ->
    completions (snd (poll_cycles config envs g)) = repeat false (length envs) /\
    notifications (snd (poll_cycles config envs g)) = [].
Proof.
  intros Hrefl Hall. induction Hall as [|env rest [d Hd] _ IH]; intros g Hg.
  - split; reflexivity.
  - rewrite poll_cycles_cons. cbn [snd].
    rewrite completions_app, notifications_app.
    rewrite (completions_succeeded config env g d i Hd).
    rewrite (notifications_succeeded config env g d i Hd).
    rewrite (globals_succeeded config env g d i Hd).
    rewrite Hg, Hrefl.
    destruct (IH (mkGlobals i d) eq_refl) as [IHc IHn].
    rewrite IHc, IHn. split; reflexivity.
Qed.

Lemma strict_equals_null i : i <> VNull -> strict_equals i VNull = false.
Proof.
  destruct i; cbn; intros H; try reflexivity. now elim H.
Qed.

(** C3, as the code has it. From the initial state, the first successful
    cycle whose identifier is not [null] reports changed and calls the
    notifier; when the following successful cycles bring that same
    identifier (one that is strictly equal to itself, as every
    identifier but [NaN] is), each reports unchanged and none sends
    anything: over the whole sequence the notification is sent once, by
    the first cycle. *)
Theorem first_cycle_notifies_once config env d i envs :
  poll_result env = Success d i ->
  i <> VNull ->
  Forall (fun e => exists d', poll_result e = Success d' i) envs ->
  completions (snd (pollHttpEndpoint config env initial)) = [true] /\
  notifications (snd (pollHttpEndpoint config env initial)) =
    (if notifier_ready config then [update_message (clock env) true d] else []) /\
  (strict_equals i i = true ->
   completions (snd (poll_cycles config (env :: envs) initial)) =
     true :: repeat false (length envs) /\
   notifications (snd (poll_cycles config (env :: envs) initial)) =
     (if notifier_ready config then [update_message (clock env) true d] else [])).
Proof.
  intros H Hnull Hall.
  pose proof (completions_succeeded config env initial d i H) as Hc.
  pose proof (notifications_succeeded config env initial d i H) as Hn.
  cbn [initial lastResponseId] in Hc, Hn.
  rewrite (strict_equals_null i Hnull) in Hc, Hn. cbn [negb] in Hc.
  split; [exact Hc|]. split; [exact Hn|].
  intros Hrefl. rewrite poll_cycles_cons. cbn [snd].
  rewrite completions_app, notifications_app, Hc, Hn.
  rewrite (globals_succeeded config env initial d i H).
  destruct (poll_cycles_same_id config i envs Hrefl Hall (mkGlobals i d) eq_refl)
    as [Rc Rn].
  rewrite Rc, Rn, app_nil_r. split; reflexivity.
Qed.

Lemma first_cycle_notifies_once_witness :
  completions
    (snd (poll_cycles sample_config
            [cycle_of "09:00:00" (ok_response 0 r1_10);
             cycle_of "09:05:00" (ok_response 10 r1_99);
             cycle_of "09:10:00" (ok_response 50 r1_10)]
            initial))
  = [true; false; false]
  /\
  notifications
    (snd (poll_cycles sample_config
            [cycle_of "09:00:00" (ok_response 0 r1_10);
             cycle_of "09:05:00" (ok_response 10 r1_99);
             cycle_of "09:10:00" (ok_response 50 r1_10)]
            initial))
  = [update_message "09:00:00" true r1_10].
Proof.
  refine (proj2 (proj2
    (first_cycle_notifies_once sample_config
       (cycle_of "09:00:00" (ok_response 0 r1_10)) r1_10 (VString "r1")
       [cycle_of "09:05:00" (ok_response 10 r1_99);
        cycle_of "09:10:00" (ok_response 50 r1_10)]
       eq_refl _ _)) eq_refl).
  - discriminate.
  - repeat constructor.
    + exists r1_99. reflexivity.
    + exists r1_10. reflexivity.
Defined.

(** C3, as the claim has it, fails: [null] is what [lastResponseId]
    holds before the first cycle, so a first document whose [id] is
    [null] is fetched successfully, reported unchanged and not notified. *)
Lemma first_cycle_null_id_not_notified :
  poll_result (cycle_of "09:00:00" (ok_response 30 id_null))
    = Success id_null VNull /\
  pollHttpEndpoint sample_config
    (cycle_of "09:00:00" (ok_response 30 id_null)) initial
    = (Return tt, mkGlobals VNull id_null,
       request_trace sample_config ++
       [LogInfo [Lit "Polling completed, data "; Lit "unchanged"]]) /\
  completions
    (snd (pollHttpEndpoint sample_config
            (cycle_of "09:00:00" (ok_response 30 id_null)) initial))
    = [false] /\
  notifications
    (snd (pollHttpEndpoint sample_config
            (cycle_of "09:00:00" (ok_response 30 id_null)) initial))
    = [].
Proof.
  repeat split; reflexivity.
Qed.

Lemma last_success_id envs d i :
  last_success envs = Some (d, i) -> get_named d "id" = Return i.
Proof.
  induction envs as [|env rest IH]; cbn; [discriminate|].
  destruct (last_success rest) as [c|].
  - intros H. apply IH. exact H.
  - destruct (poll_result env) as [d' i'| |] eqn:Hp; try discriminate.
    intros H; inversion H; subst. now apply poll_result_id with (env := env).
Qed.

Lemma poll_cycles_globals config envs :
  forall g,
    fst (poll_cycles config envs g) =
      match last_success envs with
      | Some (d, i) => mkGlobals i d
      | None => g
      end.
Proof.
  induction envs as [|env rest IH]; intros g; [reflexivity|].
  rewrite poll_cycles_cons. cbn [fst last_success]. rewrite IH.
  destruct (last_success rest) as [[d i]|]; [reflexivity|].
  destruct (poll_result env) as [d i| c | m] eqn:Hp.
  - now apply globals_succeeded.
  - rewrite poll_failed by (rewrite Hp; reflexivity). reflexivity.
  - rewrite poll_failed by (rewrite Hp; reflexivity). reflexivity.
Qed.

(** C10. The two variables are coupled: after any finite sequence of
    poll cycles from the initial state, either no cycle has succeeded
    and both variables are still [null], or they hold the candidate
    document of the most recent successful cycle and that document's
    [id]; a failed cycle writes neither. *)
Theorem state_pair_coupling config envs :
  match last_success envs with
  | None => fst (poll_cycles config envs initial) = initial
  | Some (d, i) =>
      fst (poll_cycles config envs initial) = mkGlobals i d /\
      get_named d "id" = Return i
  end.
Proof.
  pose proof (poll_cycles_globals config envs initial) as H.
  destruct (last_success envs) as [[d i]|] eqn:Hl; [|exact H].
  split; [exact H|]. now apply last_success_id with (envs := envs).
Qed.

(* ================================================================== *)
(** ** The event loop *)

Lemma boot_eq config :
  boot config =
    mkSystem initial [InPoll CalledByMain AwaitingGet]
             (startup_trace config ++ request_trace config).
Proof.
  unfold boot, spawn, main_start, init_bot, startup_trace, poll_stretch,
    poll_start, request_trace.
  destruct (bot config); reflexivity.
Qed.

Lemma poll_stretch_start config c g :
  poll_stretch config c (poll_start config) g =
    (Return (InPoll c AwaitingGet), g, request_trace config).
Proof. reflexivity. Qed.

(** A tick of the scheduled job is never refused, whatever is in flight. *)
Lemma step_Tick config sys :
  job_scheduled sys = true ->
  step config sys Tick =
    Some (mkSystem (vars sys) (tasks sys ++ [InPoll CalledByJob AwaitingGet])
                   (trace sys ++ request_trace config)).
Proof.
  intros H. cbn [step]. rewrite H. unfold spawn.
  rewrite poll_stretch_start. reflexivity.
Qed.

Lemma poll_returned_vars config c g :
  exists t' tr, poll_returned config c g = (Return t', g, tr) /\ frame_ok t'.
Proof.
  destruct c; cbn; do 2 eexists; split; try reflexivity; exact I.
Qed.

(** The stretch from line 108: it commits only in an unchanged cycle,
    and suspends at line 134 with a document and its [id]. *)
Lemma poll_get_settled_vars config now f g :
  exists pc g' tr,
    poll_get_settled config now f g = (Return pc, g', tr) /\
    ((pc = PollReturned /\ left_or_committed g g') \/
     (exists s d i ch, pc = AwaitingSend s d i ch /\ g' = g /\
                       get_named d "id" = Return i)).
Proof.
  unfold poll_get_settled, try_catch. destruct f as [e|r].
  - cbn. do 3 eexists. split; [reflexivity|]. left. split; [reflexivity|now left].
  - unfold poll_on_response.
    destruct (PrimFloat.eqb (status r) 200) eqn:H200; cbn [negb].
    + unfold bind at 1. unfold lift.
      destruct (candidate_of (data r)) as [[d i]|e] eqn:Hc.
      * pose proof (candidate_of_id _ _ _ Hc) as Hid.
        cbn [fst snd]. unfold bind at 1. unfold read.
        destruct (strict_equals i (lastResponseId g)) eqn:Heq; cbn [negb].
        -- cbn. do 3 eexists. split; [reflexivity|]. left.
           split; [reflexivity|]. right. exists d, i. split; [exact Hid|reflexivity].
        -- unfold sendTelegramMessage_start.
           destruct (negb (bot config) || negb (set_and_nonempty (TELEGRAM_CHAT_ID config)));
             cbn; do 3 eexists; (split; [reflexivity|]); right;
             do 4 eexists; (split; [reflexivity|]); split; [reflexivity|exact Hid | reflexivity | exact Hid].
      * cbn. do 3 eexists. split; [reflexivity|]. left. split; [reflexivity|now left].
    + cbn. do 3 eexists. split; [reflexivity|]. left. split; [reflexivity|now left].
Qed.

(** The stretch from line 134: it commits the document it carries. *)
Lemma poll_send_settled_vars s a d i ch g :
  exists tr,
    poll_send_settled s a d i ch g = (Return PollReturned, mkGlobals i d, tr).
Proof.
  unfold poll_send_settled. destruct s as [ok|]; [|destruct a as [|e]];
    cbn; eexists; reflexivity.
Qed.

Lemma poll_stretch_vars config c m g :
  (exists pc g' tr,
     m g = (Return pc, g', tr) /\
     ((pc = PollReturned /\ left_or_committed g g') \/
      (exists s d i ch, pc = AwaitingSend s d i ch /\ g' = g /\
                        get_named d "id" = Return i))) ->
  exists o g' tr,
    poll_stretch config c m g = (o, g', tr) /\
    left_or_committed g g' /\ frame_ok (task_of o).
Proof.
  intros (pc & g' & tr & Hm & Hcase).
  unfold poll_stretch, try_catch, bind. rewrite Hm.
  destruct Hcase as [[-> Hg]|(s & d & i & ch & -> & -> & Hid)].
  - destruct (poll_returned_vars config c g') as (t' & tr' & Hr & Hok).
    rewrite Hr. do 3 eexists. split; [reflexivity|]. split; assumption.
  - cbn. do 3 eexists. split; [reflexivity|]. split; [now left|exact Hid].
Qed.

Lemma command_start_vars config cmd ctx now g :
  exists t' tr,
    command_start config cmd ctx now g = (Return t', g, tr) /\ frame_ok t'.
Proof.
  destruct cmd; cbn; do 2 eexists; split; try reflexivity; exact I.
Qed.

Lemma reply_settled_vars config ctx pc a g :
  exists t' tr,
    reply_settled config ctx pc a g = (Return t', g, tr) /\ frame_ok t'.
Proof.
  destruct a as [|e]; [destruct pc|]; cbn; do 2 eexists; split;
    try reflexivity; exact I.
Qed.

Lemma Forall_replace_nth {A} (P : A -> Prop) i x l :
  Forall P l -> P x -> Forall P (replace_nth i x l).
Proof.
  intros Hl Hx. revert i. induction Hl as [|y l Hy Hl IH]; intros i.
  - destruct i; constructor.
  - destruct i; cbn; constructor; auto.
Qed.

(** One turn of the loop leaves the variables or commits a document
    with its [id], and keeps every suspended invocation well formed. *)
Lemma step_vars config sys a sys' :
  Forall frame_ok (tasks sys) ->
  step config sys a = Some sys' ->
  left_or_committed (vars sys) (vars sys') /\ Forall frame_ok (tasks sys').
Proof.
  intros Hinv Hstep. destruct a as [|cmd ctx now|i s]; cbn [step] in Hstep.
  - destruct (job_scheduled sys); [|discriminate].
    inversion Hstep; subst; clear Hstep. unfold spawn.
    rewrite poll_stretch_start. cbn. split; [now left|].
    apply Forall_app. split; [exact Hinv|]. repeat constructor.
  - destruct (bot config); [|discriminate].
    inversion Hstep; subst; clear Hstep. unfold spawn.
    destruct (command_start_vars config cmd ctx now (vars sys)) as (t' & tr & -> & Hok).
    cbn. split; [now left|].
    apply Forall_app. split; [exact Hinv|]. repeat constructor. exact Hok.
  - destruct (nth_error (tasks sys) i) as [[c pc|ctx pc| |e]|] eqn:Hnth;
      try discriminate.
    + assert (Hframe : frame_ok (InPoll c pc)).
      { rewrite Forall_forall in Hinv. apply Hinv.
        now apply nth_error_In with (n := i). }
      destruct (resume_poll config pc s) as [m|] eqn:Hres; [|discriminate].
      inversion Hstep; subst; clear Hstep. unfold continue.
      assert (Hm : exists o g' tr,
                 poll_stretch config c m (vars sys) = (o, g', tr) /\
                 left_or_committed (vars sys) g' /\ frame_ok (task_of o)).
      { apply poll_stretch_vars.
        destruct pc as [|sending d id ch|]; destruct s as [now f|a|a];
          cbn in Hres; try discriminate; inversion Hres; subst; clear Hres.
        - apply poll_get_settled_vars.
        - destruct (poll_send_settled_vars sending a d id ch (vars sys))
            as [tr Htr].
          do 3 eexists. split; [exact Htr|]. left. split; [reflexivity|].
          right. exists d, id. split; [exact Hframe|reflexivity]. }
      destruct Hm as (o & g' & tr & -> & Hg & Hok). cbn.
      split; [exact Hg|]. now apply Forall_replace_nth.
    + destruct s as [now f|a|a]; try discriminate.
      inversion Hstep; subst; clear Hstep. unfold continue.
      destruct (reply_settled_vars config ctx pc a (vars sys)) as (t' & tr & -> & Hok).
      cbn. split; [now left|]. now apply Forall_replace_nth.
Qed.

Lemma left_or_committed_coupled g g' :
  coupled g -> left_or_committed g g' -> coupled g'.
Proof.
  intros Hg [->|(d & i & Hid & ->)]; [exact Hg|]. right. exact Hid.
Qed.

Lemma run_invariant config acts :
  forall sys sys',
    coupled (vars sys) -> Forall frame_ok (tasks sys) ->
    run config sys acts = Some sys' ->
    coupled (vars sys') /\ Forall frame_ok (tasks sys').
Proof.
  induction acts as [|a rest IH]; intros sys sys' Hc Hf Hrun; cbn in Hrun.
  - inversion Hrun; subst. split; assumption.
  - destruct (step config sys a) as [sys1|] eqn:Hstep; [|discriminate].
    destruct (step_vars config sys a sys1 Hf Hstep) as [Hg Hf1].
    apply (IH sys1 sys'); try assumption.
    now apply left_or_committed_coupled with (g := vars sys).
Qed.

Lemma reachable_invariant config sys :
  reachable config sys ->
  coupled (vars sys) /\ Forall frame_ok (tasks sys).
Proof.
  intros [acts Hrun].
  apply (run_invariant config acts (boot config) sys); try assumption;
    rewrite boot_eq; cbn.
  - now left.
  - repeat constructor.
Qed.

Lemma step_Check config sys ctx now :
  bot config = true ->
  step config sys (Command CmdCheck ctx now) =
    Some (mkSystem (vars sys) (tasks sys ++ [InReply ctx ReplyRunningCheck])
                   (trace sys ++ [Reply ctx [Lit "🔍 Running manual check..."] None])).
Proof.
  intros H. cbn [step]. rewrite H. reflexivity.
Qed.

Lemma step_Check_proceeds config sys i ctx :
  nth_error (tasks sys) i = Some (InReply ctx ReplyRunningCheck) ->
  step config sys (Settle i (ReplySettled ApiFulfilled)) =
    Some (mkSystem (vars sys)
            (replace_nth i (InPoll (CalledByCheck ctx) AwaitingGet) (tasks sys))
            (trace sys ++
             LogInfo [Lit "User sent /check command, executing manual check"]
             :: request_trace config)).
Proof.
  intros H. cbn [step]. rewrite H. reflexivity.
Qed.

(** C9, as the claim has it, fails. After the first cycle has stored
    [r1], a tick and a [/check] both fetch a document [r2]. Both are
    accepted; both compare with the stored [r1] before either commits,
    so both stand at line 134 at once; both then commit and complete,
    and the change to [r2] is notified twice. *)
Lemma overlapping_cycles_interleave :
  option_map tasks (run sample_config (boot sample_config) overlapping_run)
    = Some [Ended;
            InPoll CalledByJob
              (AwaitingSend SendAwaitingApi r2_99 (VString "r2") true);
            InPoll (CalledByCheck 7)
              (AwaitingSend SendAwaitingApi
                 (document 62 (VString "r2") 99) (VString "r2") true)] /\
  option_map vars (run sample_config (boot sample_config) overlapping_run)
    = Some (mkGlobals (VString "r1") r1_10) /\
  option_map tasks
    (run sample_config (boot sample_config) (overlapping_run ++ overlapping_end))
    = Some [Ended; Ended; InReply 7 ReplyCheckCompleted] /\
  option_map (fun sys => completions (trace sys))
    (run sample_config (boot sample_config) (overlapping_run ++ overlapping_end))
    = Some [true; true; true] /\
  option_map (fun sys => notifications (trace sys))
    (run sample_config (boot sample_config) (overlapping_run ++ overlapping_end))
    = Some [update_message "09:00:00" true r1_10;
            update_message "09:05:01" true r2_99;
            update_message "09:05:02" true (document 62 (VString "r2") 99)].
Proof.
  repeat split; vm_compute; reflexivity.
Qed.

(* ================================================================== *)
(** ** Startup *)

Lemma existsb_is_ScheduleJob_app t1 t2 :
  existsb is_ScheduleJob (t1 ++ t2) =
  existsb is_ScheduleJob t1 || existsb is_ScheduleJob t2.
Proof. apply existsb_app. Qed.

Lemma requests_app t1 t2 : requests (t1 ++ t2) = requests t1 ++ requests t2.
Proof. apply collect_app. Qed.

Lemma requests_startup config : requests (startup_trace config) = [].
Proof. unfold startup_trace. destruct (bot config); reflexivity. Qed.

Lemma requests_request config : requests (request_trace config) = [API_URL config].
Proof. reflexivity. Qed.

Lemma poll_get_settled_failed config now f g :
  failed (poll_result (cycle_of now f)) = true ->
  poll_get_settled config now f g =
    (Return PollReturned, g,
     [LogError (failure_line (poll_result (cycle_of now f)))]).
Proof.
  unfold poll_result, cycle_of, poll_get_settled, try_catch, poll_on_response.
  cbn [fetched]. destruct f as [e|r]; [reflexivity|].
  destruct (PrimFloat.eqb (status r) 200); cbn [negb]; [|reflexivity].
  unfold bind at 1. unfold lift.
  destruct (candidate_of (data r)) as [[d i]|e]; [discriminate|reflexivity].
Qed.

Lemma step_poll config sys i c pc s m o g' tr :
  nth_error (tasks sys) i = Some (InPoll c pc) ->
  resume_poll config pc s = Some m ->
  poll_stretch config c m (vars sys) = (o, g', tr) ->
  step config sys (Settle i s) =
    Some (mkSystem g' (replace_nth i (task_of o) (tasks sys)) (trace sys ++ tr)).
Proof.
  intros Hnth Hres Hm. cbn [step]. rewrite Hnth, Hres. unfold continue.
  rewrite Hm. reflexivity.
Qed.

(** Lines 222 to 227: what [main] does when its invocation returns. *)
Lemma poll_stretch_main_returned config m g g' tr :
  m g = (Return PollReturned, g', tr) ->
  poll_stretch config CalledByMain m g =
    (Return Ended, g',
     tr ++ [ScheduleJob [Lit "*/"; Num (REQUEST_INTERVAL config); Lit " * * * * *"];
            LogInfo [Lit "Scheduled task set up, polling every ";
                     Num (REQUEST_INTERVAL config); Lit " seconds"]]).
Proof.
  intros Hm. unfold poll_stretch, try_catch. unfold bind at 1. rewrite Hm.
  reflexivity.
Qed.

Lemma poll_stretch_suspended config c m g g' tr s d i ch :
  m g = (Return (AwaitingSend s d i ch), g', tr) ->
  poll_stretch config c m g = (Return (InPoll c (AwaitingSend s d i ch)), g', tr ++ []).
Proof.
  intros Hm. unfold poll_stretch, try_catch. unfold bind at 1. rewrite Hm.
  reflexivity.
Qed.

Lemma job_scheduled_app g ts t1 t2 :
  existsb is_ScheduleJob t2 = true ->
  job_scheduled (mkSystem g ts (t1 ++ t2)) = true.
Proof.
  intros H. unfold job_scheduled. cbn [trace].
  rewrite existsb_is_ScheduleJob_app, H. apply orb_true_r.
Qed.

(** The stretches of [pollHttpEndpoint] call [axios.get] only at the
    start of an invocation. *)
Lemma requests_get_settled config now f g :
  requests (snd (poll_get_settled config now f g)) = [].
Proof.
  unfold poll_get_settled, try_catch. destruct f as [e|r]; [reflexivity|].
  unfold poll_on_response.
  destruct (PrimFloat.eqb (status r) 200); cbn [negb]; [|reflexivity].
  unfold bind at 1. unfold lift.
  destruct (candidate_of (data r)) as [[d i]|e]; [|reflexivity].
  cbn [fst snd]. unfold bind at 1. unfold read.
  destruct (strict_equals i (lastResponseId g)); cbn [negb]; [reflexivity|].
  unfold sendTelegramMessage_start.
  destruct (negb (bot config) || negb (set_and_nonempty (TELEGRAM_CHAT_ID config)));
    reflexivity.
Qed.

Lemma requests_send_settled s a d i ch g :
  requests (snd (poll_send_settled s a d i ch g)) = [].
Proof.
  unfold poll_send_settled. destruct s as [ok|]; [|destruct a as [|e]]; reflexivity.
Qed.

(** Whatever the first request gives, [main] gets to line 223: the job
    is scheduled as soon as the first invocation has returned, after one
    stretch or, when a message is sent, after two. *)
Lemma main_schedules_job config now f a :
  exists sys,
    (run config (boot config) [Settle 0 (GetSettled now f)] = Some sys \/
     run config (boot config)
         [Settle 0 (GetSettled now f); Settle 0 (SendSettled a)] = Some sys) /\
    tasks sys = [Ended] /\
    job_scheduled sys = true /\
    requests (trace sys) = [API_URL config].
Proof.
  rewrite boot_eq.
  pose proof (requests_get_settled config now f initial) as Hreq.
  destruct (poll_get_settled_vars config now f initial)
    as (pc & g' & tr & Hm & [[-> _]|(s & d & i & ch & -> & -> & _)]);
    rewrite Hm in Hreq; cbn [snd] in Hreq.
  - eexists. split; [left|].
    + cbn [run]. erewrite step_poll; [reflexivity|reflexivity|reflexivity|].
      apply poll_stretch_main_returned. exact Hm.
    + cbn [tasks replace_nth task_of trace]. split; [reflexivity|]. split.
      * apply job_scheduled_app.
        rewrite existsb_is_ScheduleJob_app. cbn. apply orb_true_r.
      * rewrite !requests_app, requests_startup, requests_request, Hreq.
        reflexivity.
  - pose proof (requests_send_settled s a d i ch initial) as Hreq2.
    destruct (poll_send_settled_vars s a d i ch initial) as [tr2 Hm2].
    rewrite Hm2 in Hreq2; cbn [snd] in Hreq2.
    eexists. split; [right|].
    + cbn [run]. erewrite step_poll; [|reflexivity|reflexivity|].
      2: { apply poll_stretch_suspended. exact Hm. }
      cbn [replace_nth task_of tasks].
      erewrite step_poll; [reflexivity|reflexivity|reflexivity|].
      cbn [vars]. apply poll_stretch_main_returned. exact Hm2.
    + cbn [tasks replace_nth task_of trace]. split; [reflexivity|]. split.
      * apply job_scheduled_app.
        rewrite existsb_is_ScheduleJob_app. cbn. apply orb_true_r.
      * rewrite !requests_app, requests_startup, requests_request, Hreq, Hreq2.
        reflexivity.
Qed.

(** When the first cycle fails, [main] goes on to schedule the job. *)
Lemma main_poll_failed config sys now f :
  nth_error (tasks sys) 0 = Some (InPoll CalledByMain AwaitingGet) ->
  failed (poll_result (cycle_of now f)) = true ->
  step config sys (Settle 0 (GetSettled now f)) =
    Some (mkSystem (vars sys) (replace_nth 0 Ended (tasks sys))
            (trace sys ++
             [LogError (failure_line (poll_result (cycle_of now f)));
              ScheduleJob [Lit "*/"; Num (REQUEST_INTERVAL config); Lit " * * * * *"];
              LogInfo [Lit "Scheduled task set up, polling every ";
                       Num (REQUEST_INTERVAL config); Lit " seconds"]])).
Proof.
  intros Hnth Hfail. cbn [step]. rewrite Hnth. cbn [resume_poll].
  unfold continue, poll_stretch, try_catch. unfold bind at 1.
  rewrite (poll_get_settled_failed config now f (vars sys) Hfail).
  reflexivity.
Qed.

(** C8, as the code has it. Nothing checks the target URL at startup:
    whatever the configuration, [main] starts the first poll cycle with
    the URL as it is (undefined when absent); when that cycle fails, as
    it does without a URL, [main] still schedules the job and the next
    tick requests again. When the notifier credentials are missing, a
    successful cycle stores the document and sends nothing: a detected
    change is only logged. *)
Theorem polling_starts_whatever_the_configuration config :
  vars (boot config) = initial /\
  tasks (boot config) = [InPoll CalledByMain AwaitingGet] /\
  requests (trace (boot config)) = [API_URL config] /\
  (forall now f a,
     exists sys,
       (run config (boot config) [Settle 0 (GetSettled now f)] = Some sys \/
        run config (boot config)
            [Settle 0 (GetSettled now f); Settle 0 (SendSettled a)] = Some sys) /\
       tasks sys = [Ended] /\
       step config sys Tick =
         Some (mkSystem (vars sys) [Ended; InPoll CalledByJob AwaitingGet]
                        (trace sys ++ request_trace config))) /\
  (forall now f,
     failed (poll_result (cycle_of now f)) = true ->
     exists sys,
       run config (boot config) [Settle 0 (GetSettled now f); Tick] = Some sys /\
       vars sys = initial /\
       tasks sys = [Ended; InPoll CalledByJob AwaitingGet] /\
       requests (trace sys) = [API_URL config; API_URL config]) /\
  (forall env g d i,
     notifier_ready config = false ->
     poll_result env = Success d i ->
     exists t,
       pollHttpEndpoint config env g = (Return tt, mkGlobals i d, t) /\
       notifications t = [] /\
       (strict_equals i (lastResponseId g) = false ->
        In (LogError [Lit "Telegram configuration missing, cannot send message"]) t)).
Proof.
  split; [now rewrite boot_eq|]. split; [now rewrite boot_eq|].
  split; [now rewrite boot_eq; cbn [trace]; rewrite requests_app, requests_startup|].
  split.
  { intros now f a.
    destruct (main_schedules_job config now f a) as (sys & Hrun & Htasks & Hjob & _).
    exists sys. split; [exact Hrun|]. split; [exact Htasks|].
    rewrite (step_Tick config sys Hjob), Htasks. reflexivity. }
  rewrite boot_eq. split.
  - intros now f Hfail.
    cbn [run]. rewrite main_poll_failed by (reflexivity || exact Hfail).
    cbn [vars tasks trace replace_nth].
    rewrite step_Tick.
    + eexists. split; [reflexivity|]. cbn [vars tasks trace app].
      split; [reflexivity|]. split; [reflexivity|].
      rewrite !requests_app, requests_startup, !requests_request. reflexivity.
    + unfold job_scheduled. cbn [trace].
      rewrite !existsb_is_ScheduleJob_app. cbn [existsb is_ScheduleJob].
      now rewrite !orb_true_r.
  - intros env g d i Hready Hd. eexists.
    split; [now apply poll_succeeded|].
    rewrite !notifications_app, notifications_request.
    split.
    + destruct (strict_equals i (lastResponseId g)); [reflexivity|].
      rewrite notifications_send, Hready. reflexivity.
    + intros ->. apply in_or_app. right. apply in_or_app. left.
      unfold sendTelegramMessage_trace. unfold notifier_ready in Hready.
      destruct (bot config), (set_and_nonempty (TELEGRAM_CHAT_ID config));
        try discriminate; cbn; now left.
Qed.

Lemma polling_starts_whatever_the_configuration_witness :
  exists sys,
    run no_url_config (boot no_url_config)
        [Settle 0 (GetSettled "09:00:00" (GetRejected (mkError "Invalid URL")));
         Tick] = Some sys /\
    vars sys = initial /\
    tasks sys = [Ended; InPoll CalledByJob AwaitingGet] /\
    requests (trace sys) = [API_URL no_url_config; API_URL no_url_config].
Proof.
  apply (proj1 (proj2 (proj2 (proj2 (proj2
           (polling_starts_whatever_the_configuration no_url_config)))))
           "09:00:00" (GetRejected (mkError "Invalid URL"))).
  reflexivity.
Defined.

(** C8, as the claim has it, fails: with no target URL in the
    configuration the process does not refuse to start. [main] calls
    [axios.get] with an undefined URL, and when that request has failed
    the job is scheduled and its tick requests again. *)
Lemma absent_url_is_polled :
  API_URL no_url_config = None /\
  requests (trace (boot no_url_config)) = [None] /\
  option_map (fun sys => (job_scheduled sys, requests (trace sys)))
    (run no_url_config (boot no_url_config)
         [Settle 0 (GetSettled "09:00:00" (GetRejected (mkError "Invalid URL")));
          Tick])
    = Some (true, [None; None]).
Proof.
  repeat split; vm_compute; reflexivity.
Qed.

(* ================================================================== *)
(** ** The status command *)

(** The handler of [/status] reads the variables and writes nothing;
    its reply carries the interval, the URL and the flag. *)
Lemma status_reads_only config ctx now g :
  command_start config CmdStatus ctx now g =
    (Return (InReply ctx ReplyOfStatus), g,
     [Reply ctx (statusMessage config g now) (Some "HTML")]) /\
  nth 5 (statusMessage config g now) (Lit "") = Num (REQUEST_INTERVAL config) /\
  nth 9 (statusMessage config g now) (Lit "") = Lit (interpolate (API_URL config)) /\
  nth 12 (statusMessage config g now) (Lit "") =
    Lit (if NOTIFY_ON_CHANGE_ONLY config then "Yes" else "No").
Proof. repeat split; reflexivity. Qed.

(** What follows [Last update time:] is the clock at the moment of the
    query whenever [lastResponse] is truthy: no time of an update is
    kept anywhere. *)
Lemma status_time_is_now config now g :
  nth 14 (statusMessage config g now) (Lit "") = Lit "🕒 Last update time: " /\
  nth 15 (statusMessage config g now) (Lit "") =
    Lit (if truthy (lastResponse g) then now else "No data retrieved yet").
Proof. split; reflexivity. Qed.

(** C7 fails on the code. A document is stored at 09:00:00 (the
    notification of that update carries this time); [/status] at
    17:30:00 leaves the variables as they are and replies with the
    interval, the URL and the flag, but under [Last update time] it
    gives 17:30:00, the time of the query, not the time of the last
    successful update. *)
Theorem status_gives_time_of_query :
  option_map (fun sys => (vars sys, notifications (trace sys), last (trace sys) BotStart))
    (run sample_config (boot sample_config) status_run)
  = Some (mkGlobals (VString "r1") r1_10,
          [update_message "09:00:00" true r1_10],
          Reply 1 (statusMessage sample_config
                     (mkGlobals (VString "r1") r1_10) "17:30:00")
                (Some "HTML")) /\
  nth 14 (statusMessage sample_config (mkGlobals (VString "r1") r1_10) "17:30:00")
      (Lit "") = Lit "🕒 Last update time: " /\
  nth 15 (statusMessage sample_config (mkGlobals (VString "r1") r1_10) "17:30:00")
      (Lit "") = Lit "17:30:00".
Proof.
  repeat split; vm_compute; reflexivity.
Qed.

(* ================================================================== *)
(** ** Further properties of a cycle *)

Lemma get_named_not_nullish v name x :
  get_named v name = Return x -> nullish v = false.
Proof. destruct v; cbn; intros H; (discriminate || reflexivity). Qed.

Lemma get_index_not_nullish v n x :
  get_index v n = Return x -> nullish v = false.
Proof. destruct v; cbn; intros H; (discriminate || reflexivity). Qed.

Lemma get_named_total v name :
  nullish v = false -> exists x, get_named v name = Return x.
Proof. destruct v; cbn; intros H; try discriminate; eexists; reflexivity. Qed.

Lemma get_index_total v n :
  nullish v = false -> exists x, get_index v n = Return x.
Proof. destruct v; cbn; intros H; try discriminate; eexists; reflexivity. Qed.

(** X1. Lines 122 and 125 find a candidate exactly when the body, its
    [data] and the first element of [data] are all neither [undefined]
    nor [null]; nothing asks for [data] to be an array or for the
    candidate to have an [id]. *)
Theorem candidate_found_iff body :
  (exists d i, candidate_of body = Return (d, i)) <->
  (nullish body = false /\
   exists seq, get_named body "data" = Return seq /\ nullish seq = false /\
   exists d, get_index seq 0 = Return d /\ nullish d = false).
Proof.
  unfold candidate_of. split.
  - intros (d & i & H).
    destruct (get_named body "data") as [seq|e] eqn:Hseq; [|discriminate].
    destruct (get_index seq 0) as [d'|e] eqn:Hd; [|discriminate].
    destruct (get_named d' "id") as [i'|e] eqn:Hi; [|discriminate].
    split; [now apply get_named_not_nullish with (name := "data") (x := seq)|].
    exists seq. split; [reflexivity|].
    split; [now apply get_index_not_nullish with (n := 0) (x := d')|].
    exists d'. split; [exact Hd|].
    now apply get_named_not_nullish with (name := "id") (x := i').
  - intros (_ & seq & Hseq & _ & d & Hd & Hnull).
    rewrite Hseq, Hd.
    destruct (get_named_total d "id" Hnull) as [i Hi]. rewrite Hi.
    exists d, i. reflexivity.
Qed.

Lemma filter_outcome_send config msg a :
  filter outcome_line (sendTelegramMessage_trace config msg a) = [].
Proof.
  unfold sendTelegramMessage_trace.
  destruct (negb (bot config) || negb (set_and_nonempty (TELEGRAM_CHAT_ID config)));
    [reflexivity|].
  destruct a; reflexivity.
Qed.

Lemma requests_send config msg a :
  requests (sendTelegramMessage_trace config msg a) = [].
Proof.
  unfold sendTelegramMessage_trace.
  destruct (negb (bot config) || negb (set_and_nonempty (TELEGRAM_CHAT_ID config)));
    [reflexivity|].
  destruct a; reflexivity.
Qed.

(** X2. One cycle, whatever it is given: [axios.get] is called exactly
    once, with the configured URL (no retry); at most one message is
    handed to the Telegram API; the trace opens with the line of line
    105 and closes with the one line that tells the outcome. *)
Theorem cycle_requests_once config env g :
  let t := snd (pollHttpEndpoint config env g) in
  requests t = [API_URL config] /\
  length (notifications t) <= 1 /\
  hd_error t =
    Some (LogInfo [Lit "Starting to poll "; Lit (interpolate (API_URL config))]) /\
  filter outcome_line t = [last t BotStart].
Proof.
  cbv zeta. destruct (poll_result env) as [d i|c|m] eqn:Hp.
  - rewrite (poll_succeeded config env g d i Hp). cbn [snd].
    rewrite app_assoc, last_last, <- app_assoc.
    rewrite !requests_app, !notifications_app, !filter_app.
    rewrite requests_request, notifications_request.
    split; [|split; [|split; [reflexivity|]]].
    + destruct (strict_equals i (lastResponseId g)); [reflexivity|].
      now rewrite requests_send.
    + destruct (strict_equals i (lastResponseId g)); [cbn; auto|].
      rewrite notifications_send.
      destruct (notifier_ready config); cbn; auto.
    + destruct (strict_equals i (lastResponseId g)); [reflexivity|].
      now rewrite filter_outcome_send.
  - assert (Hf : failed (poll_result env) = true) by (rewrite Hp; reflexivity).
    rewrite (poll_failed config env g Hf), Hp. cbn [snd]. rewrite last_last.
    rewrite requests_app, notifications_app, filter_app.
    repeat split. cbn. auto.
  - assert (Hf : failed (poll_result env) = true) by (rewrite Hp; reflexivity).
    rewrite (poll_failed config env g Hf), Hp. cbn [snd]. rewrite last_last.
    rewrite requests_app, notifications_app, filter_app.
    repeat split. cbn. auto.
Qed.

Lemma poll_result_fetched env env' :
  fetched env' = fetched env -> poll_result env' = poll_result env.
Proof. unfold poll_result. now intros ->. Qed.

(** X3. Polling the same response again changes nothing in the state:
    after a cycle on a response, a second cycle on that response, at
    whatever time and with whatever delivery, leaves [lastResponseId]
    and [lastResponse] as the first cycle left them. *)
Theorem repeated_cycle_is_idempotent config env now a g :
  snd (fst (pollHttpEndpoint config (mkEnv (fetched env) now a)
              (snd (fst (pollHttpEndpoint config env g)))))
  = snd (fst (pollHttpEndpoint config env g)).
Proof.
  pose proof (poll_result_fetched env (mkEnv (fetched env) now a) eq_refl) as He.
  destruct (poll_result env) as [d i|c|m] eqn:Hp.
  - now rewrite !(globals_succeeded config _ _ d i) by assumption.
  - rewrite (poll_failed config env g) by (rewrite Hp; reflexivity).
    cbn [fst snd]. rewrite poll_failed by (rewrite He; reflexivity). reflexivity.
  - rewrite (poll_failed config env g) by (rewrite Hp; reflexivity).
    cbn [fst snd]. rewrite poll_failed by (rewrite He; reflexivity). reflexivity.
Qed.

Lemma poll_failed_silent config env g :
  failed (poll_result env) = true ->
  snd (fst (pollHttpEndpoint config env g)) = g /\
  completions (snd (pollHttpEndpoint config env g)) = [] /\
  notifications (snd (pollHttpEndpoint config env g)) = [].
Proof.
  intros Hf. rewrite (poll_failed config env g Hf). cbn [fst snd].
  rewrite completions_app, notifications_app, completions_request.
  repeat split.
Qed.

(** X4. Failed cycles are invisible to change detection: a sequence of
    cycles ends in the same state, reports the same changes and sends
    the same messages as the sequence of its successful cycles alone.
    In particular an error between two fetches of the same [id] does not
    make the second one a change. *)
Theorem failed_cycles_are_invisible config envs :
  forall g,
    fst (poll_cycles config envs g) =
      fst (poll_cycles config (filter succeeded envs) g) /\
    completions (snd (poll_cycles config envs g)) =
      completions (snd (poll_cycles config (filter succeeded envs) g)) /\
    notifications (snd (poll_cycles config envs g)) =
      notifications (snd (poll_cycles config (filter succeeded envs) g)).
Proof.
  induction envs as [|env rest IH]; intros g; [repeat split|].
  cbn [filter]. destruct (succeeded env) eqn:Hs; unfold succeeded in Hs.
  - rewrite !poll_cycles_cons. cbn [fst snd].
    rewrite !completions_app, !notifications_app.
    destruct (IH (snd (fst (pollHttpEndpoint config env g)))) as (-> & -> & ->).
    repeat split.
  - apply negb_false_iff in Hs.
    rewrite poll_cycles_cons. cbn [fst snd].
    destruct (poll_failed_silent config env g Hs) as (-> & Hc & Hn).
    rewrite completions_app, notifications_app, Hc, Hn. cbn [app]. apply IH.
Qed.

(** X5. The polling interval and the notify-on-change flag play no part
    in a poll cycle: with any other values of the two, the cycle returns
    the same result, the same state and the same trace. With the flag
    off, an unchanged document is still not notified. *)
Theorem cycle_ignores_interval_and_flag config interval flag env g :
  pollHttpEndpoint (with_interval_and_flag config interval flag) env g =
  pollHttpEndpoint config env g.
Proof.
  destruct (poll_result env) as [d i|c|m] eqn:Hp.
  - rewrite !(poll_succeeded _ env g d i Hp). reflexivity.
  - rewrite !poll_failed by (rewrite Hp; reflexivity). reflexivity.
  - rewrite !poll_failed by (rewrite Hp; reflexivity). reflexivity.
Qed.

(** X6. [sendTelegramMessage] never throws and never writes a variable.
    It returns [true] exactly when the bot and the chat are configured
    and the API call succeeds; without both it returns [false] and makes
    no API call; with both it makes exactly one call, for the given
    message, to the configured chat, in HTML mode. *)
Theorem sendTelegramMessage_contract config msg a g :
  exists t,
    sendTelegramMessage config msg a g =
      (Return (notifier_ready config && fulfilled a), g, t) /\
    collect (fun e => match e with
                      | ApiSendMessage chat m mode => Some (chat, m, mode)
                      | _ => None
                      end) t =
      (if notifier_ready config
       then [(interpolate (TELEGRAM_CHAT_ID config), msg, "HTML")]
       else []) /\
    requests t = [].
Proof.
  unfold sendTelegramMessage, sendTelegramMessage_start, notifier_ready.
  destruct (bot config), (set_and_nonempty (TELEGRAM_CHAT_ID config));
    cbn [negb orb andb]; try (eexists; repeat split; fail);
    destruct a; eexists; repeat split.
Qed.

(* ================================================================== *)
(** ** Further properties of the event loop *)

Lemma candidate_of_not_nullish body d i :
  candidate_of body = Return (d, i) -> nullish d = false.
Proof.
  intros H. apply candidate_of_id in H.
  now apply get_named_not_nullish with (name := "id") (x := i).
Qed.

(** The body of an invocation after line 108 returns a program point
    and only logs or sends a well-formed message. *)
Lemma poll_get_settled_body config now f g :
  exists pc g' tr,
    poll_get_settled config now f g = (Return pc, g', tr) /\
    Forall (body_event config) tr.
Proof.
  unfold poll_get_settled, try_catch. destruct f as [e|r].
  - do 3 eexists. split; [reflexivity|]. repeat constructor.
  - unfold poll_on_response.
    destruct (PrimFloat.eqb (status r) 200); cbn [negb].
    + unfold bind at 1. unfold lift.
      destruct (candidate_of (data r)) as [[d i]|e] eqn:Hc.
      * cbn [fst snd]. unfold bind at 1. unfold read.
        destruct (strict_equals i (lastResponseId g)); cbn [negb].
        -- do 3 eexists. split; [reflexivity|]. repeat constructor.
        -- unfold sendTelegramMessage_start.
           destruct (bot config) eqn:Hbot;
             destruct (set_and_nonempty (TELEGRAM_CHAT_ID config)) eqn:Hchat;
             cbn [negb orb]; do 3 eexists; (split; [reflexivity|]);
             repeat constructor.
           ++ unfold notifier_ready. now rewrite Hbot, Hchat.
           ++ exists now, d. split; [|reflexivity].
              now apply candidate_of_not_nullish with (body := data r) (i := i).
      * do 3 eexists. split; [reflexivity|]. repeat constructor.
    + do 3 eexists. split; [reflexivity|]. repeat constructor.
Qed.

Lemma poll_send_settled_body config s a d i ch g :
  exists tr,
    poll_send_settled s a d i ch g = (Return PollReturned, mkGlobals i d, tr) /\
    Forall (body_event config) tr.
Proof.
  unfold poll_send_settled. destruct s as [ok|]; [|destruct a as [|e]];
    eexists; (split; [reflexivity|]); repeat constructor.
Qed.

Lemma resume_poll_body config pc s m g :
  resume_poll config pc s = Some m ->
  exists pc' g' tr,
    m g = (Return pc', g', tr) /\ Forall (body_event config) tr /\
    pc' <> AwaitingGet.
Proof.
  destruct pc as [|sending d i ch|]; destruct s as [now f|a|a]; cbn;
    try discriminate; intros H; inversion H; subst; clear H.
  - destruct (poll_get_settled_body config now f g) as (pc' & g' & tr & Hm & Hb).
    exists pc', g', tr. split; [exact Hm|]. split; [exact Hb|].
    intros ->.
    destruct (poll_get_settled_vars config now f g)
      as (pc2 & g2 & tr2 & Hm2 & [[-> _]|(s' & d' & i' & ch' & -> & _)]);
      rewrite Hm in Hm2; discriminate.
  - destruct (poll_send_settled_body config sending a d i ch g) as (tr & Hm & Hb).
    exists PollReturned, (mkGlobals i d), tr.
    split; [exact Hm|]. split; [exact Hb|]. discriminate.
Qed.

(** A stretch of an invocation: its body, then, when the invocation has
    returned, what its caller does next. *)
Lemma poll_stretch_resumed config c m g pc g' tr :
  m g = (Return pc, g', tr) ->
  poll_stretch config c m g =
    match pc with
    | PollReturned =>
        (fst (fst (poll_returned config c g')), g',
         tr ++ snd (poll_returned config c g'))
    | _ => (Return (InPoll c pc), g', tr ++ [])
    end.
Proof.
  intros Hm. unfold poll_stretch, try_catch. unfold bind at 1. rewrite Hm.
  destruct pc; [reflexivity|reflexivity|].
  destruct c; reflexivity.
Qed.

Lemma nth_error_replace_nth {A} i (x : A) l y :
  nth_error l i = Some y -> nth_error (replace_nth i x l) i = Some x.
Proof.
  revert i. induction l as [|z l IH]; intros [|i]; cbn; try discriminate; auto.
Qed.

Lemma nth_error_app_last {A} (l : list A) x :
  nth_error (l ++ [x]) (length l) = Some x.
Proof. induction l; cbn; auto. Qed.

Lemma replace_nth_app_last {A} (l : list A) x y :
  replace_nth (length l) y (l ++ [x]) = l ++ [y].
Proof. induction l as [|z l IH]; cbn; [reflexivity|now rewrite IH]. Qed.

Lemma body_event_well_formed config tr :
  Forall (body_event config) tr -> Forall (well_formed config) tr.
Proof.
  apply Forall_impl. intros e He. unfold well_formed.
  destruct e; cbn in *; try contradiction;
    (split; [exact I|split; [first [exact I|exact He]
                            |first [reflexivity|exact He]]]).
Qed.

Lemma body_event_no_schedule config tr :
  Forall (body_event config) tr -> filter is_ScheduleJob tr = [].
Proof.
  induction 1 as [|e tr He _ IH]; [reflexivity|].
  cbn. destruct e; cbn in *; try contradiction; exact IH.
Qed.

Lemma well_formed_request_trace config :
  Forall (well_formed config) (request_trace config).
Proof. repeat constructor. Qed.

(** What the caller does next is well formed; only [main] schedules. *)
Lemma poll_returned_shape config c g :
  exists t' tr,
    poll_returned config c g = (Return t', g, tr) /\
    Forall (well_formed config) tr /\
    is_escaped t' = false /\ called_by_main t' = false /\
    match c with
    | CalledByMain => t' = Ended /\ length (filter is_ScheduleJob tr) = 1
    | _ => filter is_ScheduleJob tr = []
    end.
Proof.
  destruct c; do 2 eexists; (split; [reflexivity|]); repeat split;
    repeat constructor.
Qed.

(** The shape of one turn of the event loop: the trace grows by
    well-formed events; either a task that is not [main]'s is added, or
    one task moves on, and the job is scheduled exactly when the task
    that moves on is [main]'s invocation and it returns. *)
Lemma step_shape config sys a sys' :
  step config sys a = Some sys' ->
  exists tr,
    trace sys' = trace sys ++ tr /\ Forall (well_formed config) tr /\
    ((exists t', tasks sys' = tasks sys ++ [t'] /\
                 called_by_main t' = false /\ is_escaped t' = false /\
                 filter is_ScheduleJob tr = []) \/
     (exists i t t',
        nth_error (tasks sys) i = Some t /\ t <> Ended /\
        tasks sys' = replace_nth i t' (tasks sys) /\
        is_escaped t' = false /\
        ((called_by_main t = true /\
          ((called_by_main t' = true /\ filter is_ScheduleJob tr = []) \/
           (t' = Ended /\ length (filter is_ScheduleJob tr) = 1))) \/
         (called_by_main t = false /\ called_by_main t' = false /\
          filter is_ScheduleJob tr = [])))).
Proof.
  intros Hstep. destruct a as [|cmd ctx now|i s]; cbn [step] in Hstep.
  - destruct (job_scheduled sys); [|discriminate].
    inversion Hstep; subst; clear Hstep. unfold spawn.
    rewrite poll_stretch_start. cbn [trace tasks task_of].
    eexists. split; [reflexivity|]. split; [apply well_formed_request_trace|].
    left. eexists. repeat split.
  - destruct (bot config); [|discriminate].
    inversion Hstep; subst; clear Hstep. unfold spawn.
    destruct cmd; cbn [command_start bind emit ret read app trace tasks task_of];
      unfold bind, emit, ret, read; cbn [trace tasks task_of app];
      (eexists; split; [reflexivity|]; split; [repeat constructor|]);
      left; eexists; repeat split.
  - destruct (nth_error (tasks sys) i) as [[c pc|ctx pc| |e]|] eqn:Hnth;
      try discriminate.
    + destruct (resume_poll config pc s) as [m|] eqn:Hres; [|discriminate].
      inversion Hstep; subst; clear Hstep. unfold continue.
      destruct (resume_poll_body config pc s m (vars sys) Hres)
        as (pc' & g' & tr & Hm & Hbody & Hpc').
      rewrite (poll_stretch_resumed config c m (vars sys) pc' g' tr Hm).
      destruct pc' as [|sending d id ch|]; [now elim Hpc'| |].
      * cbn [trace tasks task_of]. rewrite app_nil_r.
        exists tr. split; [reflexivity|].
        split; [now apply body_event_well_formed|].
        right. exists i, (InPoll c pc), (InPoll c (AwaitingSend sending d id ch)).
        split; [exact Hnth|]. split; [discriminate|].
        split; [reflexivity|]. split; [reflexivity|].
        pose proof (body_event_no_schedule config tr Hbody) as Hns.
        destruct c; cbn; [left; split; [reflexivity|]; left; now split
                         |right; now repeat split
                         |right; now repeat split].
      * destruct (poll_returned_shape config c g')
          as (t' & tr' & Hr & Hwf & Hesc & Hnm & Hc).
        rewrite Hr. cbn [fst snd trace tasks task_of].
        exists (tr ++ tr'). split; [reflexivity|].
        split; [apply Forall_app; split;
                [now apply body_event_well_formed|exact Hwf]|].
        right. exists i, (InPoll c pc), t'.
        split; [exact Hnth|]. split; [discriminate|].
        split; [reflexivity|]. split; [exact Hesc|].
        pose proof (body_event_no_schedule config tr Hbody) as Hns.
        rewrite filter_app, Hns. cbn [app].
        destruct c; cbn [called_by_main].
        -- left. split; [reflexivity|]. right. exact Hc.
        -- right. now repeat split.
        -- right. now repeat split.
    + destruct s as [now f|a|a]; try discriminate.
      inversion Hstep; subst; clear Hstep. unfold continue.
      destruct a as [|e]; [destruct pc|];
        cbn [reply_settled bot_catch poll_start bind emit ret log_info log_error];
        unfold bind, emit, ret, log_info, log_error, emit;
        cbn [trace tasks task_of app];
        (eexists; split; [reflexivity|]; split; [repeat constructor|]);
        right; exists i; do 2 eexists;
        (split; [exact Hnth|]); (split; [discriminate|]);
        (split; [reflexivity|]); (split; [reflexivity|]);
        right; repeat split.
Qed.

Lemma forallb_nth_error {A} (f : A -> bool) l i x :
  forallb f l = true -> nth_error l i = Some x -> f x = true.
Proof.
  intros Hall Hnth. rewrite forallb_forall in Hall. apply Hall.
  now apply nth_error_In with (n := i).
Qed.

Lemma forallb_replace_nth {A} (f : A -> bool) i x l :
  forallb f l = true -> f x = true -> forallb f (replace_nth i x l) = true.
Proof.
  revert i. induction l as [|y l IH]; intros i Hl Hx; [now destruct i|].
  cbn in Hl. apply andb_true_iff in Hl as [Hy Hl].
  destruct i; cbn; apply andb_true_iff; auto.
Qed.

Lemma called_by_main_true t :
  called_by_main t = true -> exists pc, t = InPoll CalledByMain pc.
Proof.
  destruct t as [[| |ctx] pc| | |]; cbn; try discriminate. intros _. now exists pc.
Qed.

Lemma main_state_step config sys a sys' :
  step config sys a = Some sys' -> main_state sys -> main_state sys'.
Proof.
  intros Hstep Hmain.
  destruct (step_shape config sys a sys' Hstep) as (tr & Htr & _ & Hshape).
  unfold main_state in *. rewrite Htr, filter_app.
  destruct (tasks sys) as [|first others] eqn:Htasks; [contradiction|].
  destruct Hmain as [Hfirst Hothers].
  destruct Hshape as [(t' & -> & Hnm & _ & Hns)
                     |(i & t & t' & Hnth & Hne & -> & _ & Hcase)].
  - cbn [app]. rewrite Hns, app_nil_r. split; [exact Hfirst|].
    rewrite forallb_app, Hothers. cbn. now rewrite Hnm.
  - destruct i as [|j]; cbn [replace_nth nth_error] in *.
    + inversion Hnth; subst t; clear Hnth. split; [|exact Hothers].
      destruct Hfirst as [(pc & -> & Hnone)|[-> _]]; [|now elim Hne].
      rewrite Hnone. cbn [app].
      destruct Hcase as [[_ [[Hm' Hns]|[-> Hone]]]|[Hm _]]; [| |discriminate].
      * left. destruct (called_by_main_true t' Hm') as [pc' ->].
        exists pc'. now split.
      * right. now split.
    + pose proof (forallb_nth_error _ _ _ _ Hothers Hnth) as Hnot.
      apply negb_true_iff in Hnot.
      destruct Hcase as [[Hm _]|(_ & Hm' & Hns)]; [congruence|].
      rewrite Hns, app_nil_r. split; [exact Hfirst|].
      apply forallb_replace_nth; [exact Hothers|]. now rewrite Hm'.
Qed.

Lemma escaped_step config sys a sys' :
  step config sys a = Some sys' ->
  Forall (fun t => is_escaped t = false) (tasks sys) ->
  Forall (fun t => is_escaped t = false) (tasks sys').
Proof.
  intros Hstep Hall.
  destruct (step_shape config sys a sys' Hstep) as (tr & _ & _ & Hshape).
  destruct Hshape as [(t' & -> & _ & Hesc & _)
                     |(i & t & t' & _ & _ & -> & Hesc & _)].
  - apply Forall_app. split; [exact Hall|]. now constructor.
  - now apply Forall_replace_nth.
Qed.

Lemma well_formed_startup config : Forall (well_formed config) (startup_trace config).
Proof. unfold startup_trace. destruct (bot config); repeat constructor. Qed.

(** Every state the process can reach: the trace is well formed, no
    task holds an escaped error, and [main]'s invocation decides the
    schedule. *)
Lemma reachable_shape config sys :
  reachable config sys ->
  Forall (well_formed config) (trace sys) /\
  Forall (fun t => is_escaped t = false) (tasks sys) /\
  main_state sys.
Proof.
  intros [acts Hrun]. revert Hrun.
  assert (Hboot : Forall (well_formed config) (trace (boot config)) /\
                  Forall (fun t => is_escaped t = false) (tasks (boot config)) /\
                  main_state (boot config)).
  { rewrite boot_eq. cbn [trace tasks]. split; [|split].
    - apply Forall_app. split;
        [apply well_formed_startup|apply well_formed_request_trace].
    - repeat constructor.
    - unfold main_state. cbn [tasks trace]. split; [|reflexivity].
      left. exists AwaitingGet. split; [reflexivity|].
      rewrite filter_app. unfold startup_trace.
      destruct (bot config); reflexivity. }
  revert Hboot. generalize (boot config) as sys0. revert sys.
  induction acts as [|a rest IH]; intros sys sys0 Hinv Hrun; cbn in Hrun.
  - inversion Hrun; subst. exact Hinv.
  - destruct (step config sys0 a) as [sys1|] eqn:Hstep; [|discriminate].
    apply (IH sys sys1); [|exact Hrun].
    destruct Hinv as (Hwf & Hesc & Hmain).
    split; [|split].
    + destruct (step_shape config sys0 a sys1 Hstep) as (tr & -> & Hwf' & _).
      apply Forall_app. now split.
    + now apply escaped_step with (config := config) (sys := sys0) (a := a).
    + now apply main_state_step with (config := config) (sys := sys0) (a := a).
Qed.

Lemma existsb_filter_nil {A} (f : A -> bool) l :
  existsb f l = false <-> filter f l = [].
Proof.
  induction l as [|x l IH]; cbn; [tauto|].
  destruct (f x); cbn; [split; discriminate|exact IH].
Qed.

(** X7. The periodic job is scheduled once and only after the first
    poll: in every state the process can reach, [schedule.scheduleJob]
    has been called at most once; it has been called exactly when the
    invocation [main] awaits at line 220 has returned; until then that
    invocation is in flight and no tick can start a cycle; and no other
    task ever is an invocation of [main]. *)
Theorem job_is_scheduled_once_after_first_poll config sys :
  reachable config sys ->
  length (filter is_ScheduleJob (trace sys)) <= 1 /\
  (job_scheduled sys = true -> nth_error (tasks sys) 0 = Some Ended) /\
  (job_scheduled sys = false ->
   (exists pc, nth_error (tasks sys) 0 = Some (InPoll CalledByMain pc)) /\
   step config sys Tick = None) /\
  (forall i pc, nth_error (tasks sys) (S i) <> Some (InPoll CalledByMain pc)).
Proof.
  intros Hreach. destruct (reachable_shape config sys Hreach) as (_ & _ & Hmain).
  unfold main_state in Hmain. cbn [step].
  destruct (tasks sys) as [|first others]; [contradiction|].
  destruct Hmain as [Hfirst Hothers]. cbn [nth_error].
  split; [|split; [|split]].
  - destruct Hfirst as [(pc & _ & ->)|[_ ->]]; cbn; auto.
  - intros Hsched. destruct Hfirst as [(pc & _ & Hnone)|[-> _]]; [|reflexivity].
    apply existsb_filter_nil in Hnone. unfold job_scheduled in Hsched. congruence.
  - intros Hsched. rewrite Hsched. split; [|reflexivity].
    destruct Hfirst as [(pc & -> & _)|[_ Hone]]; [now exists pc|].
    unfold job_scheduled in Hsched.
    apply existsb_filter_nil in Hsched. rewrite Hsched in Hone. discriminate.
  - intros i pc Hnth.
    pose proof (forallb_nth_error _ _ _ _ Hothers Hnth) as Hnot. discriminate.
Qed.

Lemma job_is_scheduled_once_after_first_poll_witness :
  length (filter is_ScheduleJob (trace overlapped)) <= 1 /\
  nth_error (tasks overlapped) 0 = Some Ended.
Proof.
  pose proof (job_is_scheduled_once_after_first_poll sample_config overlapped
                (ex_intro _ overlapping_run eq_refl)) as (H1 & H2 & _).
  split; [exact H1|]. apply H2. reflexivity.
Defined.

Lemma message_ok_notifications config tr :
  notifier_ready config = false ->
  Forall (message_ok config) tr -> notifications tr = [].
Proof.
  intros Hready. induction 1 as [|e tr He _ IH]; [reflexivity|].
  destruct e; cbn in *; try exact IH.
  destruct He as [Hr _]. congruence.
Qed.

Lemma body_event_reply_ok config tr :
  Forall (body_event config) tr -> Forall (reply_ok config) tr.
Proof.
  apply Forall_impl. intros e He. destruct e; cbn in *; try contradiction; exact I.
Qed.

(** One turn of the event loop sends only replies of the five kinds. *)
Lemma step_replies config sys a sys' :
  step config sys a = Some sys' ->
  exists tr, trace sys' = trace sys ++ tr /\ Forall (reply_ok config) tr.
Proof.
  intros Hstep. destruct a as [|cmd ctx now|i s]; cbn [step] in Hstep.
  - destruct (job_scheduled sys); [|discriminate].
    inversion Hstep; subst; clear Hstep. unfold spawn.
    rewrite poll_stretch_start. cbn [trace].
    eexists. split; [reflexivity|]. repeat constructor.
  - destruct (bot config); [|discriminate].
    inversion Hstep; subst; clear Hstep. unfold spawn.
    destruct cmd; cbv [command_start bind emit ret read]; cbn [trace app];
      (eexists; split; [reflexivity|]); (apply Forall_cons; [cbn|constructor]).
    + left. now split.
    + right. left. now split.
    + right. right. left. split; [|reflexivity]. now exists (vars sys), now.
    + right. right. right. left. now split.
  - destruct (nth_error (tasks sys) i) as [[c pc|ctx pc| |e]|] eqn:Hnth;
      try discriminate.
    + destruct (resume_poll config pc s) as [m|] eqn:Hres; [|discriminate].
      inversion Hstep; subst; clear Hstep. unfold continue.
      destruct (resume_poll_body config pc s m (vars sys) Hres)
        as (pc' & g' & tr & Hm & Hbody & _).
      rewrite (poll_stretch_resumed config c m (vars sys) pc' g' tr Hm).
      pose proof (body_event_reply_ok config tr Hbody) as Hok.
      destruct pc' as [|sending d id ch|]; cbn [trace fst snd].
      * eexists. split; [reflexivity|]. rewrite app_nil_r. exact Hok.
      * eexists. split; [reflexivity|]. rewrite app_nil_r. exact Hok.
      * eexists. split; [reflexivity|]. apply Forall_app. split; [exact Hok|].
        destruct c; cbv [poll_returned bind emit ret log_info snd]; cbn [app].
        -- repeat constructor.
        -- constructor.
        -- apply Forall_cons; [|constructor].
           cbn. right. right. right. right. now split.
    + destruct s as [now f|a|a]; try discriminate.
      inversion Hstep; subst; clear Hstep. unfold continue.
      destruct a as [|e]; [destruct pc|];
        cbv [reply_settled bot_catch poll_start log_info log_error bind emit ret];
        cbn [trace app]; (eexists; split; [reflexivity|]); repeat constructor.
Qed.

Lemma reachable_replies config sys :
  reachable config sys -> Forall (reply_ok config) (trace sys).
Proof.
  intros [acts Hrun]. revert Hrun.
  assert (Hboot : Forall (reply_ok config) (trace (boot config))).
  { rewrite boot_eq. cbn [trace]. unfold startup_trace.
    destruct (bot config); repeat constructor. }
  revert Hboot. generalize (boot config) as sys0. revert sys.
  induction acts as [|a rest IH]; intros sys sys0 Hinv Hrun; cbn in Hrun.
  - inversion Hrun; subst. exact Hinv.
  - destruct (step config sys0 a) as [sys1|] eqn:Hstep; [|discriminate].
    apply (IH sys sys1); [|exact Hrun].
    destruct (step_replies config sys0 a sys1 Hstep) as (tr & -> & Hok).
    apply Forall_app. now split.
Qed.

Lemma body_event_no_telegram config tr :
  bot config = false ->
  Forall (body_event config) tr -> filter telegram_call tr = [].
Proof.
  intros Hbot. induction 1 as [|e tr He _ IH]; [reflexivity|].
  destruct e; cbn in *; try contradiction; try exact IH.
  destruct He as [Hready _]. unfold notifier_ready in Hready.
  rewrite Hbot in Hready. discriminate.
Qed.

(** Without a bot there is no handler and nothing goes to Telegram. *)
Lemma step_without_bot config sys a sys' :
  bot config = false ->
  step config sys a = Some sys' ->
  handler_in_flight sys = false /\ filter telegram_call (trace sys) = [] ->
  handler_in_flight sys' = false /\ filter telegram_call (trace sys') = [].
Proof.
  intros Hbot Hstep [Hnone Hquiet]. unfold handler_in_flight in *.
  destruct a as [|cmd ctx now|i s]; cbn [step] in Hstep.
  - destruct (job_scheduled sys); [|discriminate].
    inversion Hstep; subst; clear Hstep. unfold spawn.
    rewrite poll_stretch_start. cbn [trace tasks task_of].
    rewrite existsb_app, filter_app, Hnone, Hquiet. split; reflexivity.
  - rewrite Hbot in Hstep. discriminate.
  - destruct (nth_error (tasks sys) i) as [[c pc|ctx pc| |e]|] eqn:Hnth;
      try discriminate.
    + assert (Hc : handler_task (InPoll c pc) = false).
      { destruct (handler_task (InPoll c pc)) eqn:Hh; [|reflexivity].
        assert (existsb handler_task (tasks sys) = true); [|congruence].
        apply existsb_exists. exists (InPoll c pc).
        split; [now apply nth_error_In with (n := i)|exact Hh]. }
      destruct (resume_poll config pc s) as [m|] eqn:Hres; [|discriminate].
      inversion Hstep; subst; clear Hstep. unfold continue.
      destruct (resume_poll_body config pc s m (vars sys) Hres)
        as (pc' & g' & tr & Hm & Hbody & _).
      rewrite (poll_stretch_resumed config c m (vars sys) pc' g' tr Hm).
      pose proof (body_event_no_telegram config tr Hbot Hbody) as Htr.
      assert (Hrep : forall t, handler_task t = false ->
                existsb handler_task (replace_nth i t (tasks sys)) = false).
      { intros t Ht. clear -Hnone Ht. revert i.
        induction (tasks sys) as [|y l IH]; intros i; [now destruct i|].
        cbn in Hnone. apply orb_false_iff in Hnone as [Hy Hl].
        destruct i; cbn; [now rewrite Ht|]. now rewrite Hy, IH. }
      destruct c as [| |ctx]; [| |discriminate];
        destruct pc' as [|sending d id ch|];
        cbn [trace tasks task_of fst snd poll_returned];
        cbv [bind emit ret log_info fst snd]; cbn [task_of app];
        rewrite ?app_nil_r, !filter_app, ?Hquiet, ?Htr;
        (split; [apply Hrep; reflexivity|reflexivity]).
    + assert (existsb handler_task (tasks sys) = true); [|congruence].
      apply existsb_exists. exists (InReply ctx pc).
      split; [now apply nth_error_In with (n := i)|reflexivity].
Qed.

Lemma reachable_without_bot config sys :
  bot config = false ->
  reachable config sys ->
  handler_in_flight sys = false /\ filter telegram_call (trace sys) = [].
Proof.
  intros Hbot [acts Hrun]. revert Hrun.
  assert (Hboot : handler_in_flight (boot config) = false /\
                  filter telegram_call (trace (boot config)) = []).
  { rewrite boot_eq. unfold handler_in_flight, startup_trace. cbn [tasks trace].
    rewrite Hbot. split; reflexivity. }
  revert Hboot. generalize (boot config) as sys0. revert sys.
  induction acts as [|a rest IH]; intros sys sys0 Hinv Hrun; cbn in Hrun.
  - inversion Hrun; subst. exact Hinv.
  - destruct (step config sys0 a) as [sys1|] eqn:Hstep; [|discriminate].
    apply (IH sys sys1); [|exact Hrun].
    now apply step_without_bot with (config := config) (sys := sys0) (a := a).
Qed.

(** X8. Whatever the process has gone through, under any interleaving:
    every request it has made went to the configured URL with the
    configured headers and the configured timeout in milliseconds; every
    notification it has handed to [bot.api.sendMessage] went to the
    configured chat, in HTML mode, as the update message of a document
    that is neither [undefined] nor [null], and none was handed over
    with the bot token or the chat missing; every reply it has sent with
    [ctx.reply] is one of the five replies of the command handlers, in
    HTML mode for [/help] and [/status] and in plain mode for the
    others, and replies do not depend on the chat being configured;
    without a bot token nothing at all has gone to Telegram. *)
Theorem requests_and_messages_are_as_configured config sys :
  reachable config sys ->
  Forall (request_ok config) (trace sys) /\
  Forall (message_ok config) (trace sys) /\
  Forall (reply_ok config) (trace sys) /\
  (notifier_ready config = false -> notifications (trace sys) = []) /\
  (bot config = false -> filter telegram_call (trace sys) = []).
Proof.
  intros Hreach. destruct (reachable_shape config sys Hreach) as (Hwf & _ & _).
  assert (Hm : Forall (message_ok config) (trace sys))
    by (revert Hwf; apply Forall_impl; intros e (_ & H & _); exact H).
  split; [revert Hwf; apply Forall_impl; intros e (H & _ & _); exact H|].
  split; [exact Hm|].
  split; [now apply reachable_replies|].
  split.
  - intros Hready. now apply message_ok_notifications with (config := config).
  - intros Hbot. now destruct (reachable_without_bot config sys Hbot Hreach).
Qed.

Lemma requests_and_messages_are_as_configured_witness :
  Forall (request_ok sample_config) (trace overlapped) /\
  Forall (message_ok sample_config) (trace overlapped) /\
  Forall (reply_ok sample_config) (trace overlapped) /\
  (notifier_ready sample_config = false -> notifications (trace overlapped) = []) /\
  (bot sample_config = false -> filter telegram_call (trace overlapped) = []).
Proof.
  exact (requests_and_messages_are_as_configured sample_config overlapped
           (ex_intro _ overlapping_run eq_refl)).
Defined.

(** X9. No error leaves an invocation of [pollHttpEndpoint], whoever
    called it and however the invocations interleave: in every state the
    process can reach, no task has ended with an error thrown to the
    scheduled job, and [main]'s handler of line 231 has never logged
    [Program startup failed]. *)
Theorem no_error_escapes_an_invocation config sys :
  reachable config sys ->
  Forall (fun t => is_escaped t = false) (tasks sys) /\
  Forall (fun e => startup_failure e = false) (trace sys).
Proof.
  intros Hreach. destruct (reachable_shape config sys Hreach) as (Hwf & Hesc & _).
  split; [exact Hesc|].
  revert Hwf. apply Forall_impl. intros e (_ & _ & H). exact H.
Qed.

Lemma no_error_escapes_an_invocation_witness :
  Forall (fun t => is_escaped t = false) (tasks overlapped) /\
  Forall (fun e => startup_failure e = false) (trace overlapped).
Proof.
  exact (no_error_escapes_an_invocation sample_config overlapped
           (ex_intro _ overlapping_run eq_refl)).
Defined.

(* ================================================================== *)
(** ** An invocation that nothing interleaves with *)

Lemma poll_get_settled_unchanged config now f g d i :
  poll_result (cycle_of now f) = Success d i ->
  strict_equals i (lastResponseId g) = true ->
  poll_get_settled config now f g =
    (Return PollReturned, mkGlobals i d,
     [LogInfo [Lit "Polling completed, data "; Lit "unchanged"]]).
Proof.
  intros Hp Heq.
  destruct (poll_result_Success _ _ _ Hp) as (r & Hf & H200 & Hc).
  cbn in Hf. subst f.
  unfold poll_get_settled, try_catch, poll_on_response. rewrite H200. cbn [negb].
  unfold bind at 1. unfold lift. rewrite Hc. cbn [fst snd].
  unfold bind at 1. unfold read. rewrite Heq. reflexivity.
Qed.

(** A changed cycle in its two stretches: together they leave the trace
    of one call of [sendTelegramMessage] and the line of line 141. *)
Lemma poll_get_settled_changed config now f g d i a :
  poll_result (cycle_of now f) = Success d i ->
  strict_equals i (lastResponseId g) = false ->
  exists s tr1 tr2,
    poll_get_settled config now f g = (Return (AwaitingSend s d i true), g, tr1) /\
    (forall g2,
       poll_send_settled s a d i true g2 =
         (Return PollReturned, mkGlobals i d,
          tr2 ++ [LogInfo [Lit "Polling completed, data "; Lit "updated"]])) /\
    tr1 ++ tr2 = sendTelegramMessage_trace config (update_message now true d) a.
Proof.
  intros Hp Hneq.
  destruct (poll_result_Success _ _ _ Hp) as (r & Hf & H200 & Hc).
  cbn in Hf. subst f.
  unfold poll_get_settled, try_catch, poll_on_response. rewrite H200. cbn [negb].
  unfold bind at 1. unfold lift. rewrite Hc. cbn [fst snd].
  unfold bind at 1. unfold read. rewrite Hneq. cbn [negb].
  unfold sendTelegramMessage_start, sendTelegramMessage_trace.
  destruct (negb (bot config) || negb (set_and_nonempty (TELEGRAM_CHAT_ID config))).
  - exists (SendReturned false). do 2 eexists.
    split; [reflexivity|]. split; [intros g2; reflexivity|]. reflexivity.
  - exists SendAwaitingApi. destruct a as [|e]; do 2 eexists;
      (split; [reflexivity|]); (split; [intros g2; reflexivity|]); reflexivity.
Qed.

Lemma replace_nth_twice {A} i (x y : A) l :
  replace_nth i y (replace_nth i x l) = replace_nth i y l.
Proof.
  revert i. induction l as [|z l IH]; intros [|i]; cbn; try reflexivity.
  now rewrite IH.
Qed.

Lemma poll_stretch_returned config c m g g' tr t' tr' :
  m g = (Return PollReturned, g', tr) ->
  poll_returned config c g' = (Return t', g', tr') ->
  poll_stretch config c m g = (Return t', g', tr ++ tr').
Proof.
  intros Hm Hr.
  rewrite (poll_stretch_resumed config c m g PollReturned g' tr Hm), Hr.
  reflexivity.
Qed.

Lemma poll_unchanged_of_result config env g d i :
  poll_result env = Success d i ->
  strict_equals i (lastResponseId g) = true ->
  pollHttpEndpoint config env g =
    (Return tt, mkGlobals i d,
     request_trace config ++
     [LogInfo [Lit "Polling completed, data "; Lit "unchanged"]]).
Proof.
  intros Hp Heq. rewrite (poll_succeeded config env g d i Hp), Heq. reflexivity.
Qed.

Lemma poll_changed_of_result config env g d i :
  poll_result env = Success d i ->
  strict_equals i (lastResponseId g) = false ->
  pollHttpEndpoint config env g =
    (Return tt, mkGlobals i d,
     request_trace config ++
     sendTelegramMessage_trace config (update_message (clock env) true d)
                               (delivery env) ++
     [LogInfo [Lit "Polling completed, data "; Lit "updated"]]).
Proof.
  intros Hp Heq. rewrite (poll_succeeded config env g d i Hp), Heq. reflexivity.
Qed.

(** An invocation that runs from its request to its return with no
    other turn of the loop in between does what [pollHttpEndpoint] does,
    and then its caller goes on. *)
Lemma invocation_uninterrupted config sys i c env :
  nth_error (tasks sys) i = Some (InPoll c AwaitingGet) ->
  exists sys' body t' tr',
    (run config sys [Settle i (GetSettled (clock env) (fetched env))] = Some sys' \/
     run config sys [Settle i (GetSettled (clock env) (fetched env));
                     Settle i (SendSettled (delivery env))] = Some sys') /\
    pollHttpEndpoint config env (vars sys) =
      (Return tt, vars sys', request_trace config ++ body) /\
    poll_returned config c (vars sys') = (Return t', vars sys', tr') /\
    tasks sys' = replace_nth i t' (tasks sys) /\
    trace sys' = trace sys ++ body ++ tr'.
Proof.
  intros Hnth.
  pose proof (poll_result_fetched env (cycle_of (clock env) (fetched env)) eq_refl)
    as Hsame.
  destruct (poll_result env) as [d id|code|msg] eqn:Hp.
  - destruct (strict_equals id (lastResponseId (vars sys))) eqn:Heq.
    + destruct (poll_returned_shape config c (mkGlobals id d))
        as (t' & tr' & Hr & _).
      eexists. exists [LogInfo [Lit "Polling completed, data "; Lit "unchanged"]], t', tr'.
      split; [left; cbn [run]|].
      * erewrite step_poll; [reflexivity|exact Hnth|reflexivity|].
        apply poll_stretch_returned; [|exact Hr].
        now apply poll_get_settled_unchanged.
      * cbn [vars tasks trace].
        split; [now apply poll_unchanged_of_result|].
        split; [exact Hr|]. split; reflexivity.
    + destruct (poll_get_settled_changed config (clock env) (fetched env)
                  (vars sys) d id (delivery env) Hsame Heq)
        as (s & tr1 & tr2 & Hm1 & Hm2 & Htr).
      destruct (poll_returned_shape config c (mkGlobals id d))
        as (t' & tr' & Hr & _).
      eexists.
      exists (sendTelegramMessage_trace config
                (update_message (clock env) true d) (delivery env) ++
              [LogInfo [Lit "Polling completed, data "; Lit "updated"]]), t', tr'.
      split; [right; cbn [run]|].
      * erewrite step_poll; [|exact Hnth|reflexivity|].
        2: { rewrite (poll_stretch_resumed config c _ (vars sys) _ _ _ Hm1).
             reflexivity. }
        erewrite step_poll.
        2: { cbn [tasks].
             now apply nth_error_replace_nth with (y := InPoll c AwaitingGet). }
        2: { reflexivity. }
        2: { cbn [vars]. apply poll_stretch_returned; [apply Hm2|exact Hr]. }
        reflexivity.
      * cbn [vars tasks trace].
        split; [now apply poll_changed_of_result|].
        split; [exact Hr|]. split; [apply replace_nth_twice|].
        rewrite <- Htr, app_nil_r, <- !app_assoc. reflexivity.
  - assert (Hfail : failed (poll_result (cycle_of (clock env) (fetched env))) = true)
      by (rewrite Hsame; reflexivity).
    destruct (poll_returned_shape config c (vars sys)) as (t' & tr' & Hr & _).
    eexists. exists [LogError (failure_line (HttpError code))], t', tr'.
    split; [left; cbn [run]|].
    + erewrite step_poll; [reflexivity|exact Hnth|reflexivity|].
      apply poll_stretch_returned; [|exact Hr].
      rewrite (poll_get_settled_failed config _ _ (vars sys) Hfail), Hsame.
      reflexivity.
    + cbn [vars tasks trace].
      split; [rewrite poll_failed by (rewrite Hp; reflexivity); now rewrite Hp|].
      split; [exact Hr|]. split; reflexivity.
  - assert (Hfail : failed (poll_result (cycle_of (clock env) (fetched env))) = true)
      by (rewrite Hsame; reflexivity).
    destruct (poll_returned_shape config c (vars sys)) as (t' & tr' & Hr & _).
    eexists. exists [LogError (failure_line (TransportError msg))], t', tr'.
    split; [left; cbn [run]|].
    + erewrite step_poll; [reflexivity|exact Hnth|reflexivity|].
      apply poll_stretch_returned; [|exact Hr].
      rewrite (poll_get_settled_failed config _ _ (vars sys) Hfail), Hsame.
      reflexivity.
    + cbn [vars tasks trace].
      split; [rewrite poll_failed by (rewrite Hp; reflexivity); now rewrite Hp|].
      split; [exact Hr|]. split; reflexivity.
Qed.

(** X10. A tick whose invocation nothing interleaves with is one poll
    cycle: from any state in which the job is scheduled, the tick and
    the one or two settlements of its invocation change the variables
    exactly as [pollHttpEndpoint] does on the same response, clock and
    delivery, add exactly the trace of [pollHttpEndpoint] to the trace,
    and leave the new task ended and every other task as it was. *)
Theorem tick_runs_one_cycle config sys env :
  job_scheduled sys = true ->
  exists sys',
    (run config sys
         [Tick;
          Settle (length (tasks sys)) (GetSettled (clock env) (fetched env))]
       = Some sys' \/
     run config sys
         [Tick;
          Settle (length (tasks sys)) (GetSettled (clock env) (fetched env));
          Settle (length (tasks sys)) (SendSettled (delivery env))]
       = Some sys') /\
    vars sys' = snd (fst (pollHttpEndpoint config env (vars sys))) /\
    trace sys' = trace sys ++ snd (pollHttpEndpoint config env (vars sys)) /\
    tasks sys' = tasks sys ++ [Ended].
Proof.
  intros Hjob.
  set (sys1 := mkSystem (vars sys) (tasks sys ++ [InPoll CalledByJob AwaitingGet])
                        (trace sys ++ request_trace config)).
  destruct (invocation_uninterrupted config sys1 (length (tasks sys)) CalledByJob env
              (nth_error_app_last _ _))
    as (sys' & body & t' & tr' & Hrun & Hpoll & Hret & Htasks & Htrace).
  cbn in Hret. inversion Hret; subst t' tr'; clear Hret.
  exists sys'. split.
  - cbn [run]. rewrite (step_Tick config sys Hjob). fold sys1. exact Hrun.
  - cbn [vars tasks trace sys1] in *. rewrite Hpoll. cbn [fst snd].
    split; [reflexivity|]. split.
    + rewrite Htrace, app_nil_r, <- app_assoc. reflexivity.
    + rewrite Htasks. apply replace_nth_app_last.
Qed.

Lemma tick_runs_one_cycle_witness :
  exists sys',
    (run sample_config overlapped
         [Tick;
          Settle (length (tasks overlapped))
                 (GetSettled "09:20:00" (ok_response 70 r1_10))]
       = Some sys' \/
     run sample_config overlapped
         [Tick;
          Settle (length (tasks overlapped))
                 (GetSettled "09:20:00" (ok_response 70 r1_10));
          Settle (length (tasks overlapped)) (SendSettled ApiFulfilled)]
       = Some sys') /\
    vars sys' =
      snd (fst (pollHttpEndpoint sample_config
                  (cycle_of "09:20:00" (ok_response 70 r1_10)) (vars overlapped))) /\
    trace sys' =
      trace overlapped ++
      snd (pollHttpEndpoint sample_config
             (cycle_of "09:20:00" (ok_response 70 r1_10)) (vars overlapped)) /\
    tasks sys' = tasks overlapped ++ [Ended].
Proof.
  apply (tick_runs_one_cycle sample_config overlapped
           (cycle_of "09:20:00" (ok_response 70 r1_10))).
  reflexivity.
Defined.

(** X11. [/check] always ends with the same reply. From any state, when
    the first reply goes out and nothing interleaves, the handler runs
    exactly one poll cycle (the variables and the trace change as by
    [pollHttpEndpoint]) and then replies [Manual check completed],
    whether the fetch succeeded, gave a status other than 200 or threw:
    the outcome of the cycle is not reported. When the first reply is
    rejected, the handler stops: no request is made, the variables are
    untouched and the error goes to the handler of [bot.catch]. *)
Theorem manual_check_always_completes config sys ctx now env e :
  bot config = true ->
  (exists sys',
     (run config sys
          [Command CmdCheck ctx now;
           Settle (length (tasks sys)) (ReplySettled ApiFulfilled);
           Settle (length (tasks sys)) (GetSettled (clock env) (fetched env))]
        = Some sys' \/
      run config sys
          [Command CmdCheck ctx now;
           Settle (length (tasks sys)) (ReplySettled ApiFulfilled);
           Settle (length (tasks sys)) (GetSettled (clock env) (fetched env));
           Settle (length (tasks sys)) (SendSettled (delivery env))]
        = Some sys') /\
     vars sys' = snd (fst (pollHttpEndpoint config env (vars sys))) /\
     tasks sys' = tasks sys ++ [InReply ctx ReplyCheckCompleted] /\
     trace sys' =
       trace sys ++
       [Reply ctx [Lit "🔍 Running manual check..."] None;
        LogInfo [Lit "User sent /check command, executing manual check"]] ++
       snd (pollHttpEndpoint config env (vars sys)) ++
       [Reply ctx [Lit "✅ Manual check completed"] None]) /\
  run config sys
      [Command CmdCheck ctx now;
       Settle (length (tasks sys)) (ReplySettled (ApiRejected e))]
    = Some (mkSystem (vars sys) (tasks sys ++ [Ended])
              (trace sys ++
               [Reply ctx [Lit "🔍 Running manual check..."] None;
                LogError [Lit "Bot error: "; Lit (message e)]])).
Proof.
  intros Hbot. split.
  - set (sys2 := mkSystem (vars sys)
                   (tasks sys ++ [InPoll (CalledByCheck ctx) AwaitingGet])
                   (trace sys ++
                    [Reply ctx [Lit "🔍 Running manual check..."] None;
                     LogInfo [Lit "User sent /check command, executing manual check"]] ++
                    request_trace config)).
    assert (Hstart : forall rest,
               run config sys
                   (Command CmdCheck ctx now ::
                    Settle (length (tasks sys)) (ReplySettled ApiFulfilled) :: rest)
               = run config sys2 rest).
    { intros rest. cbn [run]. rewrite (step_Check config sys ctx now Hbot).
      erewrite step_Check_proceeds
        by (cbn [tasks]; apply nth_error_app_last).
      cbn [vars tasks trace]. rewrite replace_nth_app_last.
      unfold sys2. rewrite <- app_assoc. reflexivity. }
    destruct (invocation_uninterrupted config sys2 (length (tasks sys))
                (CalledByCheck ctx) env (nth_error_app_last _ _))
      as (sys' & body & t' & tr' & Hrun & Hpoll & Hret & Htasks & Htrace).
    cbn in Hret. inversion Hret; subst t' tr'; clear Hret.
    exists sys'. split; [rewrite !Hstart; exact Hrun|].
    cbn [vars tasks trace sys2] in *. rewrite Hpoll. cbn [fst snd].
    split; [reflexivity|]. split.
    + rewrite Htasks. apply replace_nth_app_last.
    + rewrite Htrace, <- !app_assoc. reflexivity.
  - cbn [run]. rewrite (step_Check config sys ctx now Hbot).
    cbn [step vars tasks trace]. rewrite nth_error_app_last.
    unfold continue. cbn [vars tasks trace].
    cbv [reply_settled bot_catch log_error bind emit ret task_of]. cbn [app].
    rewrite replace_nth_app_last, <- app_assoc. reflexivity.
Qed.

Lemma manual_check_always_completes_witness :
  run sample_config overlapped
      [Command CmdCheck 9 "09:30:00";
       Settle (length (tasks overlapped))
              (ReplySettled (ApiRejected (mkError "Forbidden")))]
    = Some (mkSystem (vars overlapped) (tasks overlapped ++ [Ended])
              (trace overlapped ++
               [Reply 9 [Lit "🔍 Running manual check..."] None;
                LogError [Lit "Bot error: "; Lit (message (mkError "Forbidden"))]])).
Proof.
  apply (manual_check_always_completes sample_config overlapped 9 "09:30:00"
           (cycle_of "09:30:01" (GetFulfilled (mkResponse 503 VNull)))
           (mkError "Forbidden")).
  reflexivity.
Defined.

(** X12. [/start], [/help] and [/status] only talk: from any state,
    the handler sends one reply and, when the reply has settled, writes
    one log line ([Bot error] when the reply was rejected) and ends; it
    writes no variable, makes no request and hands no message to the
    Telegram API. *)
Theorem informational_commands_only_reply config sys cmd ctx now r :
  bot config = true ->
  cmd <> CmdCheck ->
  exists msg mode line,
    run config sys
        [Command cmd ctx now; Settle (length (tasks sys)) (ReplySettled r)]
      = Some (mkSystem (vars sys) (tasks sys ++ [Ended])
                (trace sys ++ [Reply ctx msg mode; line])) /\
    (match r with
     | ApiFulfilled => exists m, line = LogInfo m
     | ApiRejected e => line = LogError [Lit "Bot error: "; Lit (message e)]
     end).
Proof.
  intros Hbot Hcmd. cbn [run step]. rewrite Hbot. unfold spawn.
  destruct cmd; [| | |now elim Hcmd];
    cbv [command_start bind emit ret read task_of]; cbn [vars tasks trace app];
    rewrite nth_error_app_last; unfold continue; cbn [vars tasks trace];
    destruct r as [|e];
    cbv [reply_settled bot_catch log_info log_error bind emit ret task_of];
    cbn [app]; rewrite replace_nth_app_last, <- app_assoc;
    do 3 eexists; (split; [reflexivity|]); try reflexivity; eexists; reflexivity.
Qed.

Lemma informational_commands_only_reply_witness :
  exists msg mode line,
    run sample_config overlapped
        [Command CmdStatus 9 "09:30:00";
         Settle (length (tasks overlapped)) (ReplySettled ApiFulfilled)]
      = Some (mkSystem (vars overlapped) (tasks overlapped ++ [Ended])
                (trace overlapped ++ [Reply 9 msg mode; line])) /\
    (exists m, line = LogInfo m).
Proof.
  apply (informational_commands_only_reply sample_config overlapped
           CmdStatus 9 "09:30:00" ApiFulfilled).
  - reflexivity.
  - discriminate.
Defined.

(* ================================================================== *)
(** ** No lock between the job and the manual check *)

(** An invocation suspended at line 134 is never held back: when its
    send has settled it commits the document it carries and returns to
    its caller, whatever the other tasks have done meanwhile. *)
Lemma suspended_invocation_completes config sys i c s d id ch a :
  nth_error (tasks sys) i = Some (InPoll c (AwaitingSend s d id ch)) ->
  exists sys' t' tr',
    step config sys (Settle i (SendSettled a)) = Some sys' /\
    vars sys' = mkGlobals id d /\
    poll_returned config c (mkGlobals id d) = (Return t', mkGlobals id d, tr') /\
    nth_error (tasks sys') i = Some t'.
Proof.
  intros Hnth.
  destruct (poll_send_settled_vars s a d id ch (vars sys)) as [tr Hm].
  destruct (poll_returned_shape config c (mkGlobals id d)) as (t' & tr' & Hr & _).
  eexists. exists t', tr'. split.
  - erewrite step_poll; [reflexivity|exact Hnth|reflexivity|].
    apply poll_stretch_returned; [exact Hm|exact Hr].
  - cbn [vars tasks]. split; [reflexivity|]. split; [exact Hr|].
    now apply nth_error_replace_nth with (y := InPoll c (AwaitingSend s d id ch)).
Qed.

(** C9, as the code has it. The program has no execution lock and no
    overlap guard, so when a tick of the scheduled job and a manual
    check overlap neither is refused or dropped. In every state the
    process can reach: a tick that fires starts its invocation of
    [pollHttpEndpoint] whatever is in flight, a manual check included;
    [/check], which the bot handles when no other handler is running,
    is taken up whatever invocations of the job or of [main] are in
    flight, and starts its own invocation once its first reply is out;
    an invocation in flight takes the settlement of its request
    whenever it comes, and one suspended at line 134 then commits its
    document and returns, whatever the others did in between. The
    invocations therefore interleave at their [await]s. What holds of
    every interleaving is that one turn of the event loop leaves the two
    variables untouched or writes a document and its [id] together, so
    the variables are coupled in every reachable state. *)
Theorem no_lock_between_tick_and_check config sys :
  reachable config sys ->
  (job_scheduled sys = true ->
   step config sys Tick =
     Some (mkSystem (vars sys) (tasks sys ++ [InPoll CalledByJob AwaitingGet])
                    (trace sys ++ request_trace config))) /\
  (bot config = true ->
   handler_in_flight sys = false ->
   forall ctx now,
     step config sys (Command CmdCheck ctx now) =
       Some (mkSystem (vars sys) (tasks sys ++ [InReply ctx ReplyRunningCheck])
               (trace sys ++ [Reply ctx [Lit "🔍 Running manual check..."] None]))) /\
  (forall i ctx,
     nth_error (tasks sys) i = Some (InReply ctx ReplyRunningCheck) ->
     step config sys (Settle i (ReplySettled ApiFulfilled)) =
       Some (mkSystem (vars sys)
               (replace_nth i (InPoll (CalledByCheck ctx) AwaitingGet) (tasks sys))
               (trace sys ++
                LogInfo [Lit "User sent /check command, executing manual check"]
                :: request_trace config))) /\
  (forall i c now f,
     nth_error (tasks sys) i = Some (InPoll c AwaitingGet) ->
     exists sys', step config sys (Settle i (GetSettled now f)) = Some sys') /\
  (forall i c s d id ch a,
     nth_error (tasks sys) i = Some (InPoll c (AwaitingSend s d id ch)) ->
     exists sys' t' tr',
       step config sys (Settle i (SendSettled a)) = Some sys' /\
       vars sys' = mkGlobals id d /\
       poll_returned config c (mkGlobals id d) = (Return t', mkGlobals id d, tr') /\
       nth_error (tasks sys') i = Some t') /\
  (forall a sys',
     step config sys a = Some sys' ->
     left_or_committed (vars sys) (vars sys')) /\
  coupled (vars sys).
Proof.
  intros Hreach. destruct (reachable_invariant config sys Hreach) as [Hc Hf].
  split; [apply step_Tick|].
  split; [intros Hbot _ ctx now; now apply step_Check|].
  split; [apply step_Check_proceeds|].
  split.
  { intros i c now f Hnth. cbn [step]. rewrite Hnth. cbn [resume_poll].
    eexists. reflexivity. }
  split; [intros i c s d id ch a; apply suspended_invocation_completes|].
  split; [|exact Hc].
  intros a sys' Hstep. now destruct (step_vars config sys a sys' Hf Hstep).
Qed.

Lemma no_lock_between_tick_and_check_witness :
  step sample_config overlapped Tick =
    Some (mkSystem (vars overlapped)
            (tasks overlapped ++ [InPoll CalledByJob AwaitingGet])
            (trace overlapped ++ request_trace sample_config))
  /\
  step sample_config job_in_flight (Command CmdCheck 7 "09:05:00") =
    Some (mkSystem (vars job_in_flight)
            (tasks job_in_flight ++ [InReply 7 ReplyRunningCheck])
            (trace job_in_flight ++
             [Reply 7 [Lit "🔍 Running manual check..."] None])).
Proof.
  split.
  - apply (proj1 (no_lock_between_tick_and_check sample_config overlapped
                    (ex_intro _ overlapping_run eq_refl))).
    reflexivity.
  - apply (proj1 (proj2 (no_lock_between_tick_and_check sample_config job_in_flight
                           (ex_intro _ (firstn 3 overlapping_run) eq_refl)))).
    + reflexivity.
    + reflexivity.
Defined.
